(** * Sensor-monitoring state machine of [main/cpp_span_visit_concept.cpp]

    A shallow embedding of the [StateMachine] and [StateMachineManager]
    classes: the variant of states, the ten-slot ring of readings indexed by
    a [size_t] counter, [transition_to], [process_sensors] and
    [get_buffer_stats].  Readings are IEEE-754 binary32 values ([float] on
    the ESP32 target), modelled with the specification of floating-point
    arithmetic of the standard library at precision 24. *)

From Stdlib Require Import ZArith Lia String.
From Stdlib Require Import Floats.SpecFloat.
From stdpp Require Import base list.

Local Open Scope Z_scope.

(** ** binary32 arithmetic *)

Module F32.

Definition prec : Z := 24.
Definition emax : Z := 128.

Definition float : Set := spec_float.

Definition nan : float := S754_nan.
Definition zero : float := S754_zero false.

(** [a + b], [a / b], [a < b] and [a > b] on [float]. *)
Definition add (a b : float) : float := SFadd prec emax a b.
Definition div (a b : float) : float := SFdiv prec emax a b.
Definition ltb (a b : float) : bool := SFltb a b.
Definition gtb (a b : float) : bool := SFltb b a.

(** Conversion of an integer ([int] or [size_t]) to [float], and the
    nearest [float] to [m * 2^e]. *)
Definition of_Z (n : Z) : float := binary_normalize prec emax n 0 false.
Definition of_bin (m e : Z) : float := binary_normalize prec emax m e false.

(** The literals of the source. *)
Definition f20 : float := Eval cbv in of_Z 20.        (* 20.0f *)
Definition f30 : float := Eval cbv in of_Z 30.        (* 30.0f *)
Definition f25 : float := Eval cbv in of_Z 25.        (* 25.0f *)
Definition f22_5 : float := Eval cbv in of_bin 45 (-1). (* 22.5f *)

(** [std::numeric_limits<float>::max()] and [lowest()]. *)
Definition FLT_MAX : float := S754_finite false 16777215 104.
Definition FLT_LOWEST : float := S754_finite true 16777215 104.

(** [std::min(a, b)] is [(b < a) ? b : a]; [std::max(a, b)] is
    [(a < b) ? b : a]. *)
Definition std_min (a b : float) : float := if ltb b a then b else a.
Definition std_max (a b : float) : float := if ltb a b then b else a.

(** Readings used in the traces below. *)
Definition f21 : float := Eval cbv in of_Z 21.
Definition f24 : float := Eval cbv in of_Z 24.
Definition f100 : float := Eval cbv in of_Z 100.
Definition f10 : float := Eval cbv in of_Z 10.
Definition f22 : float := Eval cbv in of_Z 22.
(** The [float] nearest to 20.0001: [20 + 52 * 2^-19]. *)
Definition f20_0001 : float := S754_finite false 10485812 (-19).

End F32.

Import F32.

(** ** Machine integers

    [size_t] is the 32-bit unsigned type of the target: arithmetic wraps
    modulo [2^32].  [int] is 32-bit signed; [x++] at [INT_MAX] is undefined
    in C++, the model takes the two's-complement result and the statements
    that need the incremented value stay below [INT_MAX]. *)

Definition SIZE_MODULUS : Z := 2 ^ 32.
Definition INT_MAX : Z := 2 ^ 31 - 1.
Definition INT_MIN : Z := - 2 ^ 31.

Definition size_t_wrap (z : Z) : Z := z mod SIZE_MODULUS.
Definition int_wrap (z : Z) : Z := (z + 2 ^ 31) mod 2 ^ 32 - 2 ^ 31.
Definition int_incr (z : Z) : Z := int_wrap (z + 1).

(** ** State variant definition *)

Inductive StateId : Set := IDLE | MONITORING | ALERT | CALIBRATING.

Record MonitoringState : Set := {
  average_value : float;
  sample_count : Z
}.

Record AlertState : Set := {
  message : string;
  threshold : float
}.

Record CalibratingState : Set := {
  reference_value : float;
  calibration_step : Z
}.

(** [std::variant<IdleState, MonitoringState, AlertState, CalibratingState>];
    [IdleState] has no member. *)
Inductive StateVariant : Set :=
  | Idle
  | Monitoring (state : MonitoringState)
  | Alert (state : AlertState)
  | Calibrating (state : CalibratingState).

(** [std::variant::index()]: position of the live alternative. *)
Definition index (v : StateVariant) : Z :=
  match v with
  | Idle => 0
  | Monitoring _ => 1
  | Alert _ => 2
  | Calibrating _ => 3
  end.

(** [static_cast<StateId>(n)] for the underlying values of the enumerators,
    which number from 0 in declaration order; [index] yields no other. *)
Definition static_cast_StateId (n : Z) : StateId :=
  if n =? 0 then IDLE
  else if n =? 1 then MONITORING
  else if n =? 2 then ALERT
  else CALIBRATING.

(** ** The state machine *)

Definition BUFFER_SIZE : Z := 10.

Record StateMachine : Set := {
  current_state_ : StateVariant;
  current_id_ : StateId;
  sensor_buffer_ : list float;      (* std::array<float, 10> *)
  buffer_index_ : Z                 (* size_t *)
}.

(** Default member initialisers: [IdleState{}], [StateId::IDLE], a
    value-initialised array and index 0. *)
Definition StateMachine_new : StateMachine :=
  {| current_state_ := Idle;
     current_id_ := IDLE;
     sensor_buffer_ := replicate (Z.to_nat BUFFER_SIZE) zero;
     buffer_index_ := 0 |}.

Definition get_buffer_index (m : StateMachine) : Z := buffer_index_ m.

Definition get_current_state_id (m : StateMachine) : StateId := current_id_ m.

(** [current_state_ = new_state; current_id_ = static_cast<StateId>(index())]. *)
Definition transition_to (m : StateMachine) (new_state : StateVariant) : StateMachine :=
  {| current_state_ := new_state;
     current_id_ := static_cast_StateId (index new_state);
     sensor_buffer_ := sensor_buffer_ m;
     buffer_index_ := buffer_index_ m |}.

(** Assignment to members of the visited alternative through the reference
    [state]: the variant keeps its alternative and [current_id_] is not
    recomputed. *)
Definition assign_in_place (m : StateMachine) (v : StateVariant) : StateMachine :=
  {| current_state_ := v;
     current_id_ := current_id_ m;
     sensor_buffer_ := sensor_buffer_ m;
     buffer_index_ := buffer_index_ m |}.

(** [sensor_buffer_[buffer_index_ % size()] = r; buffer_index_++]. *)
Definition store_reading (m : StateMachine) (r : float) : StateMachine :=
  {| current_state_ := current_state_ m;
     current_id_ := current_id_ m;
     sensor_buffer_ :=
       <[Z.to_nat (buffer_index_ m mod BUFFER_SIZE) := r]> (sensor_buffer_ m);
     buffer_index_ := size_t_wrap (buffer_index_ m + 1) |}.

(** "Update buffer with first reading", guarded by [!readings_span.empty()]. *)
Definition update_buffer (m : StateMachine) (readings : list float) : StateMachine :=
  match readings with
  | [] => m
  | r :: _ => store_reading m r
  end.

(** [std::min(buffer_index_, sensor_buffer_.size())]. *)
Definition active_count (m : StateMachine) : Z :=
  Z.min (buffer_index_ m) BUFFER_SIZE.

(** The span [{sensor_buffer_.data(), min(buffer_index_, size())}]. *)
Definition active_buffer (m : StateMachine) : list float :=
  take (Z.to_nat (active_count m)) (sensor_buffer_ m).

(** [float sum = 0; for (val : sensor_buffer_ | take(buffer_index_)) sum += val;]
    the view has [min(buffer_index_, size())] elements: it stops at the end
    of the array. *)
Definition buffer_sum (m : StateMachine) : float :=
  fold_left add (take (Z.to_nat (buffer_index_ m)) (sensor_buffer_ m)) zero.

(** [sum / std::min(buffer_index_, sensor_buffer_.size())], the divisor
    converted to [float]. *)
Definition buffer_average (m : StateMachine) : float :=
  div (buffer_sum m) (of_Z (active_count m)).

Definition ALERT_MESSAGE : string := "Temperature High"%string.

(** The states constructed at the three valued transitions:
    [MonitoringState{readings_span[0], 1}], [AlertState{"Temperature High", 30.0f}]
    and [CalibratingState{22.5f, 1}]. *)
Definition MONITORING_ENTRY (r : float) : StateVariant :=
  Monitoring {| average_value := r; sample_count := 1 |}.
Definition ALERT_ENTRY : StateVariant :=
  Alert {| message := ALERT_MESSAGE; threshold := f30 |}.
Definition CALIBRATING_ENTRY : StateVariant :=
  Calibrating {| reference_value := f22_5; calibration_step := 1 |}.

(** The visitor of [process_sensors], one function per alternative. *)
Definition visit_Idle (m : StateMachine) (readings : list float) : StateMachine :=
  match readings with
  | r :: _ =>
      if gtb r f20
      then transition_to m (MONITORING_ENTRY r)
      else m
  | [] => m
  end.

(** The alternative after [state.sample_count++] and the assignment to
    [state.average_value]. *)
Definition monitoring_updated (m : StateMachine) (state : MonitoringState) : MonitoringState :=
  {| average_value := buffer_average m;
     sample_count := int_incr (sample_count state) |}.

Definition visit_Monitoring (m : StateMachine) (state : MonitoringState) : StateMachine :=
  let state' := monitoring_updated m state in
  let m' := assign_in_place m (Monitoring state') in
  if gtb (average_value state') f30
  then transition_to m' ALERT_ENTRY
  else m'.

Definition visit_Alert (m : StateMachine) (readings : list float) : StateMachine :=
  match readings with
  | r :: _ =>
      if ltb r f25
      then transition_to m CALIBRATING_ENTRY
      else m
  | [] => m
  end.

Definition visit_Calibrating (m : StateMachine) (state : CalibratingState) : StateMachine :=
  let state' := {| reference_value := reference_value state;
                   calibration_step := int_incr (calibration_step state) |} in
  let m' := assign_in_place m (Calibrating state') in
  if calibration_step state' >? 5
  then transition_to m' Idle
  else m'.

(** [process_sensors(sensors...)]: [readings] are the values returned by
    [sensors.read()...], in argument order. *)
Definition process_sensors (m : StateMachine) (readings : list float) : StateMachine :=
  let m1 := update_buffer m readings in
  match current_state_ m1 with
  | Idle => visit_Idle m1 readings
  | Monitoring state => visit_Monitoring m1 state
  | Alert _ => visit_Alert m1 readings
  | Calibrating state => visit_Calibrating m1 state
  end.

(** A call with one sensor. *)
Definition process_reading (m : StateMachine) (r : float) : StateMachine :=
  process_sensors m [r].

(** [get_buffer_stats]: the first loop has an empty body. *)
Definition get_buffer_stats (m : StateMachine) : float * float :=
  if buffer_index_ m =? 0 then (zero, zero)
  else
    fold_left
      (fun (acc : float * float) (val : float) =>
         (std_min (fst acc) val, std_max (snd acc) val))
      (active_buffer m) (FLT_MAX, FLT_LOWEST).

(** What a call of [get_buffer_stats] can produce: the function returns a
    tuple on every path and has no [throw]. *)
Inductive stats_outcome : Set :=
  | Returned (min_val max_val : float)
  | EmptyBufferError.

Definition call_get_buffer_stats (m : StateMachine) : stats_outcome :=
  let '(min_val, max_val) := get_buffer_stats m in Returned min_val max_val.

(** ** The manager *)

Record StateMachineManager : Set := {
  state_machine_ : StateMachine
}.

Definition StateMachineManager_new : StateMachineManager :=
  {| state_machine_ := StateMachine_new |}.

(** The values read from [temp_sensor_], [humidity_sensor_] and
    [pressure_sensor_] in one call of [update]. *)
Record SensorReadings : Set := {
  temp_reading : float;
  humidity_reading : float;
  pressure_reading : float
}.

(** The arguments of the log line of [update], the state kept as the
    variant it is rendered from. *)
Record StatusLine : Set := {
  status_state : StateVariant;
  status_samples : Z;
  status_range : float * float
}.

Definition update (mgr : StateMachineManager) (s : SensorReadings)
  : StateMachineManager * StatusLine :=
  let sm := process_sensors (state_machine_ mgr)
              [temp_reading s; humidity_reading s; pressure_reading s] in
  ({| state_machine_ := sm |},
   {| status_state := current_state_ sm;
      status_samples := Z.min (get_buffer_index sm) 10;
      status_range := get_buffer_stats sm |}).


(** Successive calls. *)
Definition process_all (m : StateMachine) (rs : list float) : StateMachine :=
  fold_left process_reading rs m.

Definition update_all (mgr : StateMachineManager) (ticks : list SensorReadings)
  : StateMachineManager :=
  fold_left (fun mgr s => fst (update mgr s)) ticks mgr.

(** Operations a caller can apply to a machine. *)
Inductive operation : Set :=
  | OpTransition (new_state : StateVariant)
  | OpProcess (readings : list float).

Definition apply_operation (m : StateMachine) (op : operation) : StateMachine :=
  match op with
  | OpTransition new_state => transition_to m new_state
  | OpProcess readings => process_sensors m readings
  end.

Definition apply_operations (m : StateMachine) (ops : list operation) : StateMachine :=
  fold_left apply_operation ops m.

(** The array keeps its ten slots and the counter stays a [size_t]. *)
Definition well_formed (m : StateMachine) : Prop :=
  length (sensor_buffer_ m) = Z.to_nat BUFFER_SIZE
  /\ 0 <= buffer_index_ m < SIZE_MODULUS.

(** The enumerator naming an alternative. *)
Definition StateId_of (v : StateVariant) : StateId :=
  match v with
  | Idle => IDLE
  | Monitoring _ => MONITORING
  | Alert _ => ALERT
  | Calibrating _ => CALIBRATING
  end.

(** [current_id_] names the live alternative. *)
Definition id_consistent (m : StateMachine) : Prop :=
  get_current_state_id m = StateId_of (current_state_ m).

(** ** [process_sensors] as a step relation

    One rule per path through the visitor; [head readings] is
    [readings_span[0]] behind the [!readings_span.empty()] test. *)

Inductive process_step (m : StateMachine) (readings : list float) : StateMachine -> Prop :=
  | step_idle_fire r :
      current_state_ m = Idle ->
      head readings = Some r -> gtb r f20 = true ->
      process_step m readings
        (transition_to (update_buffer m readings) (MONITORING_ENTRY r))
  | step_idle_stay :
      current_state_ m = Idle ->
      (forall r, head readings = Some r -> gtb r f20 = false) ->
      process_step m readings (update_buffer m readings)
  | step_monitoring_fire state :
      current_state_ m = Monitoring state ->
      gtb (buffer_average (update_buffer m readings)) f30 = true ->
      process_step m readings
        (transition_to
           (assign_in_place (update_buffer m readings)
              (Monitoring (monitoring_updated (update_buffer m readings) state)))
           ALERT_ENTRY)
  | step_monitoring_stay state :
      current_state_ m = Monitoring state ->
      gtb (buffer_average (update_buffer m readings)) f30 = false ->
      process_step m readings
        (assign_in_place (update_buffer m readings)
           (Monitoring (monitoring_updated (update_buffer m readings) state)))
  | step_alert_fire state r :
      current_state_ m = Alert state ->
      head readings = Some r -> ltb r f25 = true ->
      process_step m readings
        (transition_to (update_buffer m readings) CALIBRATING_ENTRY)
  | step_alert_stay state :
      current_state_ m = Alert state ->
      (forall r, head readings = Some r -> ltb r f25 = false) ->
      process_step m readings (update_buffer m readings)
  | step_calibrating_fire state :
      current_state_ m = Calibrating state ->
      int_incr (calibration_step state) > 5 ->
      process_step m readings
        (transition_to
           (assign_in_place (update_buffer m readings)
              (Calibrating {| reference_value := reference_value state;
                              calibration_step := int_incr (calibration_step state) |}))
           Idle)
  | step_calibrating_stay state :
      current_state_ m = Calibrating state ->
      int_incr (calibration_step state) <= 5 ->
      process_step m readings
        (assign_in_place (update_buffer m readings)
           (Calibrating {| reference_value := reference_value state;
                           calibration_step := int_incr (calibration_step state) |})).

(** Runs of the relation over a sequence of single readings. *)
Inductive process_run : StateMachine -> list float -> StateMachine -> Prop :=
  | run_done m : process_run m [] m
  | run_step m r rs m1 m2 :
      process_step m [r] m1 -> process_run m1 rs m2 -> process_run m (r :: rs) m2.

(** ** Further operations of the file and its callers *)

(** Successive calls of [process_sensors], each with its own pack of
    readings (possibly empty). *)
Definition process_calls (m : StateMachine) (calls : list (list float)) : StateMachine :=
  fold_left process_sensors calls m.

Definition is_nan (v : float) : bool :=
  match v with
  | S754_nan => true
  | _ => false
  end.

(** The loop body of [get_buffer_stats]. *)
Definition stats_step (acc : float * float) (val : float) : float * float :=
  (std_min (fst acc) val, std_max (snd acc) val).

(** [get_state_info]: [std::format] renders the members; the renderings of
    ["{:.2f}"], ["{:.1f}"] and ["{}"] on [int] belong to the library and are
    parameters here. *)
Section StateInfo.

Variables format_2f format_1f : float -> string.
Variable format_int : Z -> string.

Definition get_state_info (m : StateMachine) : string :=
  match current_state_ m with
  | Idle => "Idle - Waiting for commands"
  | Monitoring state =>
      String.append "Monitoring - Avg: "
        (String.append (format_2f (average_value state))
           (String.append ", Samples: " (format_int (sample_count state))))
  | Alert state =>
      String.append "ALERT: "
        (String.append (message state)
           (String.append " (Threshold: "
              (String.append (format_1f (threshold state)) ")")))
  | Calibrating state =>
      String.append "Calibrating - Ref: "
        (String.append (format_2f (reference_value state))
           (String.append ", Step: " (format_int (calibration_step state))))
  end%string.

End StateInfo.

(** ** The sensors

    [read()] draws [rand()], a value in [0, RAND_MAX]; the draw is the
    argument here.  The arithmetic is in [float], one rounding per
    operation, as written. *)

Definition float_mul (a b : float) : float := SFmul prec emax a b.

Definition f23_5 : float := Eval cbv in of_bin 47 (-1).             (* 23.5f *)
Definition f0_01 : float := Eval cbv in div (of_Z 1) (of_Z 100).    (* 0.01f *)

(** [23.5f + (rand() % 100) * 0.01f] and its siblings. *)
Definition TemperatureSensor_read (rand : Z) : float :=
  add f23_5 (float_mul (of_Z (Z.rem rand 100)) f0_01).

Definition TemperatureSensor_get_id : Z := 1.
Definition HumiditySensor_get_id : Z := 2.
Definition PressureSensor_get_id : Z := 3.





(** ** The event-driven machine of [main/cpp_variant.cpp] *)

Module Fsm.

(** [clamp_value<T>]: [is_signed] is [std::is_signed_v<T>]; the unsigned
    branch does not look at [lo]. *)
Definition clamp_value (is_signed : bool) (v lo hi : Z) : Z :=
  if is_signed
  then (if v <? lo then lo else if v >? hi then hi else v)
  else (if v >? hi then hi else v).

Inductive Event : Set :=
  | EvInit
  | EvTick
  | EvError (code : Z).

(** [std::variant<Idle, Running, Error>]; a span is the sequence it views. *)
Inductive State : Set :=
  | Idle (counter : Z)
  | Running (samples : list Z)
  | Error (code : Z).

Record StateMachine : Set := {
  state_ : State;
  sensor_data_ : list Z
}.

(** [explicit StateMachine(std::span<const int>)], [state_{ Idle{} }]. *)
Definition StateMachine_new (sensor_data : list Z) : StateMachine :=
  {| state_ := Idle 0; sensor_data_ := sensor_data |}.

Definition set_state (sm : StateMachine) (s : State) : StateMachine :=
  {| state_ := s; sensor_data_ := sensor_data_ sm |}.

(** One iteration of the loop of [minmax_samples] past the first element. *)
Definition minmax_step (acc : Z * Z) (v : Z) : Z * Z :=
  ((if v <? fst acc then v else fst acc),
   (if snd acc <? v then v else snd acc)).

(** [minmax_samples]: [s.front()] has no value on an empty span. *)
Definition minmax_samples (s : list Z) : option (Z * Z) :=
  match s with
  | [] => None
  | front :: rest => Some (fold_left minmax_step rest (front, front))
  end.

(** The overload set [handle]: three specific handlers, then the default
    that ignores the event. *)
Definition handle (sm : StateMachine) (event : Event) : option StateMachine :=
  match state_ sm, event with
  | Idle _, EvInit => Some (set_state sm (Running (sensor_data_ sm)))
  | Running samples, EvTick =>
      match minmax_samples samples with
      | None => None
      | Some (_, max) =>
          if max >? 90 then Some (set_state sm (Error max)) else Some sm
      end
  | Error _, EvTick => Some sm
  | _, _ => Some sm
  end.

Definition dispatch (sm : StateMachine) (event : Event) : option StateMachine :=
  handle sm event.

Fixpoint dispatch_all (sm : StateMachine) (events : list Event) : option StateMachine :=
  match events with
  | [] => Some sm
  | event :: rest =>
      match dispatch sm event with
      | None => None
      | Some sm' => dispatch_all sm' rest
      end
  end.

(** The samples of [app_main]. *)
Definition sensor_samples : list Z := [10; 20; 30; 40; 55; 60; 70; 95].

End Fsm.

(** ** Running extremum

    [std::min(acc, x)] and [std::max(acc, x)] both keep [acc] unless [x]
    is strictly beyond it: [pick ltb] is the former, [pick gtb] the latter. *)
Definition pick (beyond : float -> float -> bool) (acc x : float) : float :=
  if beyond x acc then x else acc.

Definition not_nan_entries (l : list float) : list float :=
  List.filter (fun v => negb (is_nan v)) l.

Ltac float_order_cases :=
  unfold ltb, gtb, SFltb, SFleb, SFcompare;
  repeat match goal with
    | s : bool |- _ => destruct s
    end;
  try discriminate; try reflexivity; try congruence;
  change (Pos.compare_cont Eq) with Pos.compare;
  repeat match goal with
    | |- context [Z.compare ?a ?b] => destruct (Z.compare_spec a b)
    | H : context [Z.compare ?a ?b] |- _ => destruct (Z.compare_spec a b)
    | |- context [Pos.compare ?a ?b] => destruct (Pos.compare_spec a b)
    | H : context [Pos.compare ?a ?b] |- _ => destruct (Pos.compare_spec a b)
    end;
  cbn in *; try discriminate; try reflexivity; try congruence; try lia.

(** ** Shapes of reached states *)

(** What [process_sensors] alone can leave in the variant. *)
Definition entered_by_processing (v : StateVariant) : Prop :=
  match v with
  | Idle | Monitoring _ => True
  | Alert state => state = {| message := ALERT_MESSAGE; threshold := f30 |}
  | Calibrating state =>
      reference_value state = f22_5 /\ 1 <= calibration_step state <= 5
  end.

(** What [dispatch] can leave in the machine of [cpp_variant.cpp] built over
    [sensor_data]. *)
Definition dispatched_shape (sensor_data : list Z) (sm : Fsm.StateMachine) : Prop :=
  Fsm.sensor_data_ sm = sensor_data
  /\ (Fsm.state_ sm = Fsm.Idle 0
      \/ Fsm.state_ sm = Fsm.Running sensor_data
      \/ exists min max,
           Fsm.minmax_samples sensor_data = Some (min, max)
           /\ max > 90 /\ Fsm.state_ sm = Fsm.Error max).

(** The test run over the hundred values of [rand() % 100]. *)
Definition temperature_in_range (k : nat) : bool :=
  let r := TemperatureSensor_read (Z.of_nat k) in
  SFleb f23_5 r && ltb r f25 && gtb r f20 && negb (gtb r f30).

Definition is_EvError (event : Fsm.Event) : bool :=
  match event with
  | Fsm.EvError _ => true
  | _ => false
  end.

(** ** Sample inputs *)

Definition readings_1_to_11 : list float :=
  map of_Z [1; 2; 3; 4; 5; 6; 7; 8; 9; 10; 11].
Definition readings_1_to_12 : list float :=
  map of_Z [1; 2; 3; 4; 5; 6; 7; 8; 9; 10; 11; 12].

Definition ticks_a : list SensorReadings :=
  [ {| temp_reading := f21; humidity_reading := f10; pressure_reading := f100 |};
    {| temp_reading := f100; humidity_reading := f22; pressure_reading := f24 |} ].
Definition ticks_b : list SensorReadings :=
  [ {| temp_reading := f21; humidity_reading := nan; pressure_reading := f20 |};
    {| temp_reading := f100; humidity_reading := zero; pressure_reading := f30 |} ].

(** A machine one reading short of the wrap of its counter. *)
Definition machine_before_wrap : StateMachine :=
  {| current_state_ := Monitoring {| average_value := f21; sample_count := 7 |};
     current_id_ := MONITORING;
     sensor_buffer_ := replicate 10 f21;
     buffer_index_ := SIZE_MODULUS - 1 |}.

(** The machine left by [2^32 - 1] readings: 100.0 twice (Monitoring, then
    Alert), 100.0 through Alert until the counter is [2^32 - 8], then 24.0
    (Calibrating, stored in slot 8), 100.0 five times (back to Idle) and
    100.0 once more (Monitoring again). *)
Definition machine_hot_before_wrap : StateMachine :=
  {| current_state_ := Monitoring {| average_value := f100; sample_count := 1 |};
     current_id_ := MONITORING;
     sensor_buffer_ := <[8%nat := f24]> (replicate 10 f100);
     buffer_index_ := SIZE_MODULUS - 1 |}.

(** * Properties *)

(** ** The literals *)

Example f20_value : f20 = S754_finite false 10485760 (-19).
Proof. reflexivity. Qed.

Example f20_0001_nearest : div (of_Z 200001) (of_Z 10000) = f20_0001.
Proof. vm_compute. reflexivity. Qed.

Example FLT_MAX_is_max : SFmax_float prec emax = FLT_MAX.
Proof. vm_compute. reflexivity. Qed.

Example valid_literals :
  forallb (valid_binary prec emax)
    [f20; f30; f25; f22_5; f21; f24; f100; f10; f22; f20_0001; FLT_MAX; FLT_LOWEST]
  = true.
Proof. vm_compute. reflexivity. Qed.

(** ** Equations of the operations *)

Lemma process_sensors_head (m : StateMachine) (r : float) (rs : list float) :
  process_sensors m (r :: rs) = process_reading m r.
Proof. reflexivity. Qed.

Lemma current_state_update_buffer (m : StateMachine) (readings : list float) :
  current_state_ (update_buffer m readings) = current_state_ m.
Proof. destruct readings; reflexivity. Qed.

Lemma current_id_update_buffer (m : StateMachine) (readings : list float) :
  current_id_ (update_buffer m readings) = current_id_ m.
Proof. destruct readings; reflexivity. Qed.

(** Past the buffer update, [process_sensors] writes neither the array nor
    the counter. *)
Lemma sensor_buffer_process_sensors (m : StateMachine) (readings : list float) :
  sensor_buffer_ (process_sensors m readings)
  = sensor_buffer_ (update_buffer m readings).
Proof.
  unfold process_sensors, visit_Idle, visit_Monitoring, visit_Alert, visit_Calibrating.
  destruct (current_state_ (update_buffer m readings)); destruct readings as [|r rs];
    cbn [update_buffer]; repeat case_match; reflexivity.
Qed.

Lemma buffer_index_process_sensors (m : StateMachine) (readings : list float) :
  buffer_index_ (process_sensors m readings)
  = buffer_index_ (update_buffer m readings).
Proof.
  unfold process_sensors, visit_Idle, visit_Monitoring, visit_Alert, visit_Calibrating.
  destruct (current_state_ (update_buffer m readings)); destruct readings as [|r rs];
    cbn [update_buffer]; repeat case_match; reflexivity.
Qed.

Lemma buffer_average_process_sensors (m : StateMachine) (readings : list float) :
  buffer_average (process_sensors m readings)
  = buffer_average (update_buffer m readings).
Proof.
  unfold buffer_average, buffer_sum, active_count.
  now rewrite sensor_buffer_process_sensors, buffer_index_process_sensors.
Qed.

(** The transition table, read off the live state before the call. *)
Lemma state_after_Idle (m : StateMachine) (r : float) (rs : list float) :
  current_state_ m = Idle ->
  current_state_ (process_sensors m (r :: rs))
  = if gtb r f20 then MONITORING_ENTRY r else Idle.
Proof.
  intros Hs. unfold process_sensors.
  rewrite current_state_update_buffer, Hs. unfold visit_Idle.
  destruct (gtb r f20); [reflexivity | exact Hs].
Qed.

Lemma state_after_Monitoring (m : StateMachine) (state : MonitoringState)
    (readings : list float) :
  current_state_ m = Monitoring state ->
  current_state_ (process_sensors m readings)
  = if gtb (buffer_average (update_buffer m readings)) f30
    then ALERT_ENTRY
    else Monitoring (monitoring_updated (update_buffer m readings) state).
Proof.
  intros Hs. unfold process_sensors.
  rewrite current_state_update_buffer, Hs. unfold visit_Monitoring.
  cbn [monitoring_updated average_value].
  destruct (gtb _ f30); reflexivity.
Qed.

Lemma state_after_Alert (m : StateMachine) (state : AlertState) (r : float)
    (rs : list float) :
  current_state_ m = Alert state ->
  current_state_ (process_sensors m (r :: rs))
  = if ltb r f25 then CALIBRATING_ENTRY else Alert state.
Proof.
  intros Hs. unfold process_sensors.
  rewrite current_state_update_buffer, Hs. unfold visit_Alert.
  destruct (ltb r f25); [reflexivity | exact Hs].
Qed.

Lemma state_after_Calibrating (m : StateMachine) (state : CalibratingState)
    (readings : list float) :
  current_state_ m = Calibrating state ->
  current_state_ (process_sensors m readings)
  = if int_incr (calibration_step state) >? 5
    then Idle
    else Calibrating {| reference_value := reference_value state;
                        calibration_step := int_incr (calibration_step state) |}.
Proof.
  intros Hs. unfold process_sensors.
  rewrite current_state_update_buffer, Hs. unfold visit_Calibrating.
  cbn [calibration_step].
  destruct (int_incr _ >? 5); reflexivity.
Qed.

Lemma int_incr_small (z : Z) : INT_MIN <= z < INT_MAX -> int_incr z = z + 1.
Proof.
  unfold int_incr, int_wrap, INT_MIN, INT_MAX. intros H.
  rewrite Z.mod_small by lia. lia.
Qed.

(** ** The cycle Idle, Monitoring, Alert, Calibrating, Idle *)

(** C1. From a freshly constructed machine: the reading 21.0 enters
    Monitoring; four further readings whose recomputed average does not
    exceed 30.0 keep it in Monitoring, the sample count rising to 5; a fifth
    reading whose average exceeds 30.0 enters Alert with the message
    "Temperature High" and threshold 30.0; the reading 24.0 then enters
    Calibrating with reference 22.5 and step 1; four more readings raise the
    step to 5 and the fifth one, at step 6, returns the machine to Idle. *)
Theorem monotonic_cycle_trace (r1 r2 r3 r4 r5 c1 c2 c3 c4 c5 : float) :
  let m0 := process_reading StateMachine_new f21 in
  let m1 := process_reading m0 r1 in
  let m2 := process_reading m1 r2 in
  let m3 := process_reading m2 r3 in
  let m4 := process_reading m3 r4 in
  let m5 := process_reading m4 r5 in
  let m6 := process_reading m5 f24 in
  let m7 := process_reading m6 c1 in
  let m8 := process_reading m7 c2 in
  let m9 := process_reading m8 c3 in
  let m10 := process_reading m9 c4 in
  let m11 := process_reading m10 c5 in
  gtb (buffer_average m1) f30 = false ->
  gtb (buffer_average m2) f30 = false ->
  gtb (buffer_average m3) f30 = false ->
  gtb (buffer_average m4) f30 = false ->
  gtb (buffer_average m5) f30 = true ->
  current_state_ StateMachine_new = Idle
  /\ sensor_buffer_ StateMachine_new = replicate 10 zero
  /\ active_count StateMachine_new = 0
  /\ current_state_ m0 = Monitoring {| average_value := f21; sample_count := 1 |}
  /\ current_state_ m1
     = Monitoring {| average_value := buffer_average m1; sample_count := 2 |}
  /\ current_state_ m2
     = Monitoring {| average_value := buffer_average m2; sample_count := 3 |}
  /\ current_state_ m3
     = Monitoring {| average_value := buffer_average m3; sample_count := 4 |}
  /\ current_state_ m4
     = Monitoring {| average_value := buffer_average m4; sample_count := 5 |}
  /\ current_state_ m5
     = Alert {| message := "Temperature High"; threshold := f30 |}
  /\ current_state_ m6
     = Calibrating {| reference_value := f22_5; calibration_step := 1 |}
  /\ current_state_ m7
     = Calibrating {| reference_value := f22_5; calibration_step := 2 |}
  /\ current_state_ m8
     = Calibrating {| reference_value := f22_5; calibration_step := 3 |}
  /\ current_state_ m9
     = Calibrating {| reference_value := f22_5; calibration_step := 4 |}
  /\ current_state_ m10
     = Calibrating {| reference_value := f22_5; calibration_step := 5 |}
  /\ current_state_ m11 = Idle.
Proof.
  intros m0 m1 m2 m3 m4 m5 m6 m7 m8 m9 m10 m11 A1 A2 A3 A4 A5.
  assert (S0 : current_state_ m0 = MONITORING_ENTRY f21) by reflexivity.
  assert (monitoring_next : forall m r state,
             current_state_ m = Monitoring state ->
             gtb (buffer_average (process_reading m r)) f30 = false ->
             current_state_ (process_reading m r)
             = Monitoring {| average_value := buffer_average (process_reading m r);
                             sample_count := int_incr (sample_count state) |}).
  { intros m r state Hs Ha. unfold process_reading in *.
    rewrite (state_after_Monitoring m state [r] Hs).
    rewrite buffer_average_process_sensors in Ha |- *. now rewrite Ha. }
  assert (calibrating_next : forall m r state,
             current_state_ m = Calibrating state ->
             current_state_ (process_reading m r)
             = if int_incr (calibration_step state) >? 5 then Idle
               else Calibrating {| reference_value := reference_value state;
                                   calibration_step := int_incr (calibration_step state) |}).
  { intros m r state Hs. exact (state_after_Calibrating m state [r] Hs). }
  pose proof (monitoring_next m0 r1 _ S0 A1) as S1. fold m1 in S1.
  pose proof (monitoring_next m1 r2 _ S1 A2) as S2. fold m2 in S2.
  pose proof (monitoring_next m2 r3 _ S2 A3) as S3. fold m3 in S3.
  pose proof (monitoring_next m3 r4 _ S3 A4) as S4. fold m4 in S4.
  assert (S5 : current_state_ m5 = ALERT_ENTRY).
  { unfold m5, process_reading in *.
    rewrite (state_after_Monitoring m4 _ [r5] S4).
    rewrite buffer_average_process_sensors in A5. now rewrite A5. }
  assert (S6 : current_state_ m6 = CALIBRATING_ENTRY).
  { unfold m6, process_reading. now rewrite (state_after_Alert m5 _ f24 [] S5). }
  pose proof (calibrating_next m6 c1 _ S6) as S7. fold m7 in S7.
  pose proof (calibrating_next m7 c2 _ S7) as S8. fold m8 in S8.
  pose proof (calibrating_next m8 c3 _ S8) as S9. fold m9 in S9.
  pose proof (calibrating_next m9 c4 _ S9) as S10. fold m10 in S10.
  pose proof (calibrating_next m10 c5 _ S10) as S11. fold m11 in S11.
  repeat split; assumption || reflexivity.
Qed.

(** The readings 21, 21, 21, 21 keep the average at 21; 100 lifts it to
    205/6; any five readings end the calibration. *)
Lemma monotonic_cycle_trace_witness :
  gtb (buffer_average (process_all StateMachine_new [f21; f21; f21; f21; f21])) f30
  = false
  /\ gtb (buffer_average (process_all StateMachine_new [f21; f21; f21; f21; f21; f100])) f30
     = true
  /\ current_state_
       (process_all StateMachine_new
          [f21; f21; f21; f21; f21; f100; f24; f21; f21; f21; f21; f21])
     = Idle.
Proof.
  pose proof (monotonic_cycle_trace f21 f21 f21 f21 f100 f21 f21 f21 f21 f21) as H.
  cbv zeta in H.
  destruct H as (_ & _ & _ & _ & _ & _ & _ & _ & _ & _ & _ & _ & _ & _ & H);
    [vm_compute; reflexivity .. | ].
  split; [vm_compute; reflexivity | split; [vm_compute; reflexivity | exact H]].
Defined.

(** ** Statistics of an empty buffer *)

(** C2 (as the code has it). With no reading stored ([buffer_index_ == 0])
    [get_buffer_stats] returns the pair (0.0, 0.0); no error is raised. *)
Theorem get_buffer_stats_empty (m : StateMachine) :
  buffer_index_ m = 0 ->
  get_buffer_stats m = (zero, zero)
  /\ call_get_buffer_stats m = Returned zero zero.
Proof.
  intros H. unfold call_get_buffer_stats, get_buffer_stats. rewrite H. split; reflexivity.
Qed.

Lemma get_buffer_stats_empty_witness :
  get_buffer_stats StateMachine_new = (zero, zero)
  /\ call_get_buffer_stats StateMachine_new = Returned zero zero.
Proof. apply (get_buffer_stats_empty StateMachine_new). reflexivity. Defined.

(** C2 as stated fails: on the fresh machine the call returns, it does not
    end in [EmptyBufferError]. *)
Lemma get_buffer_stats_fresh_no_error :
  active_count StateMachine_new = 0
  /\ call_get_buffer_stats StateMachine_new <> EmptyBufferError.
Proof. split; [reflexivity | discriminate]. Qed.

(** ** The Idle threshold *)

(** C3. In Idle, a reading of exactly 20.0 leaves the machine in Idle; the
    reading 20.0001 moves it to Monitoring with that reading as average and a
    sample count of 1. *)
Theorem idle_threshold_strict (m : StateMachine) :
  current_state_ m = Idle ->
  current_state_ (process_reading m f20) = Idle
  /\ current_state_ (process_reading m f20_0001)
     = Monitoring {| average_value := f20_0001; sample_count := 1 |}.
Proof.
  intros Hs. unfold process_reading.
  rewrite !(state_after_Idle m _ [] Hs). split; reflexivity.
Qed.

Lemma idle_threshold_strict_witness :
  current_state_ (process_reading StateMachine_new f20) = Idle
  /\ current_state_ (process_reading StateMachine_new f20_0001)
     = Monitoring {| average_value := f20_0001; sample_count := 1 |}.
Proof. apply (idle_threshold_strict StateMachine_new). reflexivity. Defined.

(** ** Well-formed machines *)

Lemma well_formed_new : well_formed StateMachine_new.
Proof. split; [reflexivity | unfold SIZE_MODULUS; cbn; lia]. Qed.

Lemma well_formed_store_reading (m : StateMachine) (r : float) :
  well_formed m -> well_formed (store_reading m r).
Proof.
  intros [Hlen Hidx]. split; cbn.
  - now rewrite length_insert.
  - apply Z.mod_pos_bound. reflexivity.
Qed.

Lemma well_formed_update_buffer (m : StateMachine) (readings : list float) :
  well_formed m -> well_formed (update_buffer m readings).
Proof. destruct readings; [trivial | apply well_formed_store_reading]. Qed.

Lemma well_formed_transition_to (m : StateMachine) (v : StateVariant) :
  well_formed m -> well_formed (transition_to m v).
Proof. trivial. Qed.

Lemma well_formed_process_sensors (m : StateMachine) (readings : list float) :
  well_formed m -> well_formed (process_sensors m readings).
Proof.
  intros H. apply (well_formed_update_buffer m readings) in H.
  unfold well_formed in *.
  now rewrite sensor_buffer_process_sensors, buffer_index_process_sensors.
Qed.

Lemma well_formed_apply_operations (ops : list operation) :
  well_formed (apply_operations StateMachine_new ops).
Proof.
  unfold apply_operations. generalize well_formed_new. generalize StateMachine_new.
  induction ops as [| op ops IH]; intros m Hm; [exact Hm |].
  cbn [fold_left]. apply IH. destruct op as [v | readings]; cbn [apply_operation].
  - now apply well_formed_transition_to.
  - now apply well_formed_process_sensors.
Qed.

(** On the ten-slot array, [take(buffer_index_)] and the span of
    [min(buffer_index_, size())] elements are the same view. *)
Lemma take_index_active_buffer (m : StateMachine) :
  well_formed m ->
  take (Z.to_nat (buffer_index_ m)) (sensor_buffer_ m) = active_buffer m.
Proof.
  intros [Hlen Hidx]. unfold active_buffer, active_count, BUFFER_SIZE in *.
  destruct (Z.le_gt_cases (buffer_index_ m) 10) as [Hle | Hgt].
  - now rewrite Z.min_l.
  - rewrite Z.min_r by lia. rewrite !take_ge; [reflexivity | lia | lia].
Qed.

(** The slot written by [store_reading] lies in the active view unless the
    counter wraps to 0. *)
Lemma stored_reading_active (m : StateMachine) (r : float) :
  well_formed m ->
  buffer_index_ m + 1 < SIZE_MODULUS ->
  active_buffer (store_reading m r) !! Z.to_nat (buffer_index_ m mod BUFFER_SIZE)
  = Some r.
Proof.
  intros [Hlen Hidx] Hno. unfold active_buffer, active_count, store_reading. cbn.
  unfold size_t_wrap, SIZE_MODULUS, BUFFER_SIZE in *.
  rewrite (Z.mod_small (buffer_index_ m + 1)) by lia.
  pose proof (Z.mod_pos_bound (buffer_index_ m) 10 eq_refl) as Hslot.
  assert (buffer_index_ m mod 10 <= buffer_index_ m) by (apply Z.mod_le; lia).
  rewrite lookup_take_lt by lia.
  apply list_lookup_insert_eq. lia.
Qed.

(** ** The Monitoring rule *)

(** The Monitoring rule on the range where it holds.  A call that
    processes a reading [r] in Monitoring increments
    [sample_count] (by one below [INT_MAX]), assigns to [average_value] the
    sum of the active entries of the buffer divided by the active count,
    the stored reading being one of these entries unless the counter wraps,
    and moves to Alert with "Temperature High" and threshold 30.0 exactly
    when that average is greater than 30.0; otherwise the updated Monitoring
    state stays. *)
Theorem monitoring_rule (m : StateMachine) (state : MonitoringState)
    (r : float) (rs : list float) :
  well_formed m ->
  current_state_ m = Monitoring state ->
  let m1 := store_reading m r in
  let state' := monitoring_updated m1 state in
  let m' := process_sensors m (r :: rs) in
  sample_count state' = int_incr (sample_count state)
  /\ (INT_MIN <= sample_count state < INT_MAX ->
      sample_count state' = sample_count state + 1)
  /\ average_value state'
     = div (fold_left add (active_buffer m1) zero) (of_Z (active_count m1))
  /\ active_buffer m' = active_buffer m1
  /\ (buffer_index_ m + 1 < SIZE_MODULUS -> r ∈ active_buffer m1)
  /\ (gtb (average_value state') f30 = true <->
      current_state_ m' = Alert {| message := "Temperature High"; threshold := f30 |})
  /\ (gtb (average_value state') f30 = false ->
      current_state_ m' = Monitoring state').
Proof.
  intros Hwf Hs m1 state' m'.
  pose proof (state_after_Monitoring m state (r :: rs) Hs) as Hstep.
  fold m' in Hstep. cbn [update_buffer] in Hstep. fold m1 in Hstep.
  fold state' in Hstep.
  assert (Havg : average_value state' = buffer_average m1) by reflexivity.
  rewrite <- Havg in Hstep.
  repeat split.
  - intros Hrange. cbn. now apply int_incr_small.
  - rewrite Havg. unfold buffer_average, buffer_sum.
    now rewrite (take_index_active_buffer m1 (well_formed_store_reading m r Hwf)).
  - unfold active_buffer, active_count, m'.
    now rewrite sensor_buffer_process_sensors, buffer_index_process_sensors.
  - intros Hno. eapply list_elem_of_lookup_2.
    exact (stored_reading_active m r Hwf Hno).
  - intros Hgt. now rewrite Hgt in Hstep.
  - intros Halert. destruct (gtb (average_value state') f30); [reflexivity |].
    rewrite Hstep in Halert. discriminate.
  - intros Hle. now rewrite Hle in Hstep.
Qed.

(** At the machine that has just entered Monitoring on 21.0, the reading
    100.0 lifts the average to 60.5. *)
Lemma monitoring_rule_witness :
  current_state_ (process_sensors (process_reading StateMachine_new f21) [f100; f10])
  = Alert {| message := "Temperature High"; threshold := f30 |}.
Proof.
  pose proof (monitoring_rule (process_reading StateMachine_new f21)
                {| average_value := f21; sample_count := 1 |} f100 [f10]) as H.
  cbv zeta in H.
  destruct H as (_ & _ & _ & _ & _ & [H _] & _).
  - apply well_formed_process_sensors, well_formed_new.
  - reflexivity.
  - apply H. vm_compute. reflexivity.
Defined.

(** C4 (the code at its failing input).  At the counter [2^32 - 1] the rule
    breaks.  The machine is in Monitoring and the reading 100.0 is stored in
    slot 5; the ten slots then hold nine times 100.0 and once 24.0, whose
    average 924/10 is above 30.0.  But the counter wraps to 0: the active
    view is empty and does not hold the reading, [average_value] becomes
    0/0, a NaN, and the machine stays in Monitoring instead of moving to
    Alert. *)
Theorem monitoring_average_lost_at_wrap :
  well_formed machine_hot_before_wrap
  /\ current_state_ machine_hot_before_wrap
     = Monitoring {| average_value := f100; sample_count := 1 |}
  /\ sensor_buffer_ (process_reading machine_hot_before_wrap f100)
     = [f100; f100; f100; f100; f100; f100; f100; f100; f24; f100]
  /\ gtb (div (fold_left add
                 (sensor_buffer_ (process_reading machine_hot_before_wrap f100)) zero)
            (of_Z 10)) f30 = true
  /\ buffer_index_ (process_reading machine_hot_before_wrap f100) = 0
  /\ active_count (process_reading machine_hot_before_wrap f100) = 0
  /\ (f100 ∉ active_buffer (process_reading machine_hot_before_wrap f100))
  /\ current_state_ (process_reading machine_hot_before_wrap f100)
     = Monitoring {| average_value := nan; sample_count := 2 |}
  /\ current_state_ (process_reading machine_hot_before_wrap f100)
     <> Alert {| message := "Temperature High"; threshold := f30 |}.
Proof.
  assert (Hview : active_buffer (process_reading machine_hot_before_wrap f100) = [])
    by (vm_compute; reflexivity).
  split; [split; [reflexivity | unfold machine_hot_before_wrap, SIZE_MODULUS; cbn; lia] |].
  split; [reflexivity |].
  split; [vm_compute; reflexivity |].
  split; [vm_compute; reflexivity |].
  split; [vm_compute; reflexivity |].
  split; [vm_compute; reflexivity |].
  split; [rewrite Hview; apply not_elem_of_nil |].
  split; [vm_compute; reflexivity |].
  vm_compute. discriminate.
Qed.

(** *** The failing machine is reached from construction *)

Lemma process_all_app (m : StateMachine) (rs1 rs2 : list float) :
  process_all m (rs1 ++ rs2) = process_all (process_all m rs1) rs2.
Proof. unfold process_all. apply fold_left_app. Qed.

(** In Alert, readings that are not below 25.0 are stored and nothing else
    happens. *)
Lemma process_all_in_Alert (rs : list float) (m : StateMachine) (state : AlertState) :
  current_state_ m = Alert state ->
  (forall r, r ∈ rs -> ltb r f25 = false) ->
  process_all m rs = fold_left store_reading rs m.
Proof.
  revert m. induction rs as [| r rs IH]; intros m Hs Hrs; [reflexivity |].
  cbn [process_all fold_left]. fold (process_all (process_reading m r) rs).
  assert (Hstep : process_reading m r = store_reading m r).
  { unfold process_reading, process_sensors. cbn [update_buffer store_reading current_state_].
    rewrite Hs. unfold visit_Alert. rewrite (Hrs r) by left. reflexivity. }
  rewrite Hstep. apply IH; [exact Hs |].
  intros r' Hr'. apply Hrs. now right.
Qed.

(** Storing [k] times the same value, below the wrap of the counter. *)
Lemma store_constant (c : float) (rs : list float) (m : StateMachine) :
  well_formed m ->
  (forall r, r ∈ rs -> r = c) ->
  buffer_index_ m + Z.of_nat (length rs) < SIZE_MODULUS ->
  current_state_ (fold_left store_reading rs m) = current_state_ m
  /\ current_id_ (fold_left store_reading rs m) = current_id_ m
  /\ buffer_index_ (fold_left store_reading rs m)
     = buffer_index_ m + Z.of_nat (length rs)
  /\ length (sensor_buffer_ (fold_left store_reading rs m)) = 10%nat
  /\ forall i : nat,
       (i < length rs)%nat ->
       sensor_buffer_ (fold_left store_reading rs m)
       !! Z.to_nat ((buffer_index_ m + Z.of_nat i) mod 10) = Some c.
Proof.
  intros [Hlen Hidx]. unfold BUFFER_SIZE in Hlen.
  induction rs as [| r rs IH] using rev_ind; intros Hall Hbound.
  - cbn. repeat split; lia.
  - rewrite length_app, Nat2Z.inj_add in Hbound |- *. cbn [length] in Hbound |- *.
    destruct IH as (Hs & Hid & Hix & Hbl & Hslots).
    { intros r' Hr'. apply Hall, elem_of_app. now left. }
    { lia. }
    assert (Hr : r = c).
    { apply Hall, elem_of_app. right. left. }
    rewrite fold_left_app. cbn [fold_left store_reading current_state_ current_id_
                                  buffer_index_ sensor_buffer_].
    rewrite Hix.
    split; [exact Hs |]. split; [exact Hid |]. split; [| split].
    + unfold size_t_wrap. rewrite Z.mod_small by lia. lia.
    + now rewrite length_insert.
    + intros i Hi. unfold BUFFER_SIZE.
      set (slot := Z.to_nat ((buffer_index_ m + Z.of_nat (length rs)) mod 10)).
      assert (Hslot : (slot < 10)%nat).
      { unfold slot.
        pose proof (Z.mod_pos_bound (buffer_index_ m + Z.of_nat (length rs)) 10 eq_refl).
        lia. }
      destruct (decide (Z.to_nat ((buffer_index_ m + Z.of_nat i) mod 10) = slot))
        as [-> | Hne].
      * rewrite list_lookup_insert_eq by lia. now rewrite Hr.
      * rewrite list_lookup_insert_ne by congruence.
        apply Hslots.
        destruct (decide (i = length rs)) as [-> | Hi']; [now contradiction Hne | lia].
Qed.

Lemma record_eta (m : StateMachine) :
  m = {| current_state_ := current_state_ m; current_id_ := current_id_ m;
         sensor_buffer_ := sensor_buffer_ m; buffer_index_ := buffer_index_ m |}.
Proof. now destruct m. Qed.

(** The [2^32 - 1] readings described at [machine_hot_before_wrap] leave
    that machine. *)
Lemma machine_hot_before_wrap_reached (rs : list float) :
  (forall r, r ∈ rs -> r = f100) ->
  Z.of_nat (length rs) = SIZE_MODULUS - 10 ->
  process_all StateMachine_new
    ([f100; f100] ++ rs ++ [f24; f100; f100; f100; f100; f100; f100])
  = machine_hot_before_wrap
  /\ Z.of_nat (length ([f100; f100] ++ rs ++ [f24; f100; f100; f100; f100; f100; f100]))
     = SIZE_MODULUS - 1.
Proof.
  intros Hall Hlen. split.
  2:{ rewrite !length_app, !Nat2Z.inj_add. cbn [length]. lia. }
  rewrite !process_all_app.
  set (m2 := process_all StateMachine_new [f100; f100]).
  assert (Hm2 : m2 = {| current_state_ := ALERT_ENTRY; current_id_ := ALERT;
                        sensor_buffer_ := [f100; f100; zero; zero; zero; zero; zero;
                                           zero; zero; zero];
                        buffer_index_ := 2 |}) by (vm_compute; reflexivity).
  assert (Hwf : well_formed m2).
  { rewrite Hm2. split; [reflexivity | unfold SIZE_MODULUS; cbn; lia]. }
  rewrite (process_all_in_Alert rs m2 {| message := ALERT_MESSAGE; threshold := f30 |});
    [| now rewrite Hm2 | intros r Hr; now rewrite (Hall r Hr)].
  destruct (store_constant f100 rs m2 Hwf Hall) as (Hs & Hid & Hix & Hbl & Hslots).
  { rewrite Hm2. cbn [buffer_index_]. lia. }
  set (m3 := fold_left store_reading rs m2) in *.
  assert (Hbuf : sensor_buffer_ m3 = replicate 10 f100).
  { apply list_eq. intros j.
    destruct (decide (j < 10)%nat) as [Hj | Hj].
    - rewrite lookup_replicate_2 by exact Hj.
      specialize (Hslots (Z.to_nat ((Z.of_nat j - buffer_index_ m2) mod 10))).
      pose proof (Z.mod_pos_bound (Z.of_nat j - buffer_index_ m2) 10 eq_refl) as Hb.
      rewrite Z2Nat.id in Hslots by lia.
      rewrite Zplus_mod_idemp_r in Hslots.
      replace (buffer_index_ m2 + (Z.of_nat j - buffer_index_ m2)) with (Z.of_nat j)
        in Hslots by lia.
      rewrite (Z.mod_small (Z.of_nat j)), Nat2Z.id in Hslots by lia.
      apply Hslots. unfold SIZE_MODULUS in Hlen. lia.
    - rewrite lookup_ge_None_2 by lia.
      symmetry. apply lookup_replicate_None. lia. }
  rewrite (record_eta m3), Hs, Hid, Hix, Hbuf, Hlen, Hm2.
  cbn [current_state_ current_id_ buffer_index_].
  vm_compute. reflexivity.
Qed.

(** ** The average held by a Monitoring state *)

(** C6 (as the code has it). When a call of [process_sensors] with a first
    reading [r] ends in Monitoring, the call started in Monitoring or in
    Idle.  Started in Monitoring, [average_value] is the average recomputed
    from the buffer as the call leaves it.  Started in Idle, the state is
    [MonitoringState{r, 1}]: the average is the reading itself, whatever the
    buffer holds. *)
Theorem monitoring_average_origin (m : StateMachine) (r : float) (rs : list float)
    (state' : MonitoringState) :
  current_state_ (process_sensors m (r :: rs)) = Monitoring state' ->
  match current_state_ m with
  | Monitoring _ =>
      average_value state' = buffer_average (process_sensors m (r :: rs))
  | Idle => average_value state' = r /\ sample_count state' = 1
  | Alert _ | Calibrating _ => False
  end.
Proof.
  intros H. destruct (current_state_ m) as [| st | st | st] eqn:Hs.
  - rewrite (state_after_Idle m r rs Hs) in H.
    destruct (gtb r f20); [| discriminate].
    injection H as <-. split; reflexivity.
  - rewrite (state_after_Monitoring m st (r :: rs) Hs) in H.
    destruct (gtb _ f30); [discriminate |].
    injection H as <-. now rewrite buffer_average_process_sensors.
  - rewrite (state_after_Alert m st r rs Hs) in H.
    destruct (ltb r f25); discriminate.
  - rewrite (state_after_Calibrating m st (r :: rs) Hs) in H.
    destruct (int_incr _ >? 5); discriminate.
Qed.

Lemma monitoring_average_origin_witness :
  f21 = buffer_average (process_all StateMachine_new [f21; f21]).
Proof.
  exact (monitoring_average_origin (process_reading StateMachine_new f21) f21 []
           {| average_value := f21; sample_count := 2 |} eq_refl).
Defined.

(** C6 as stated fails: after the readings 10.0 and 22.0 the machine is in
    Monitoring with average 22.0, while the buffer holds 10.0 and 22.0, whose
    average is 16.0. *)
Lemma monitoring_average_drifts_at_entry :
  current_state_ (process_all StateMachine_new [f10; f22])
  = Monitoring {| average_value := f22; sample_count := 1 |}
  /\ active_buffer (process_all StateMachine_new [f10; f22]) = [f10; f22]
  /\ buffer_average (process_all StateMachine_new [f10; f22]) = of_Z 16
  /\ f22 <> buffer_average (process_all StateMachine_new [f10; f22]).
Proof. vm_compute. repeat split. discriminate. Qed.

(** ** NaN readings *)

(** Every ordered comparison with NaN is false. *)
Lemma nan_comparisons_false (x : float) :
  gtb nan x = false /\ ltb nan x = false /\ gtb x nan = false /\ ltb x nan = false.
Proof. destruct x as [s | s | | s mx ex]; repeat split; reflexivity. Qed.

Lemma add_nan_r (x : float) : add x nan = nan.
Proof. destruct x; reflexivity. Qed.

Lemma fold_add_nan (l : list float) : fold_left add l nan = nan.
Proof. induction l as [| x l IH]; [reflexivity | exact IH]. Qed.

Lemma fold_add_elem_nan (l : list float) (acc : float) :
  nan ∈ l -> fold_left add l acc = nan.
Proof.
  revert acc. induction l as [| x l IH]; intros acc Hin.
  - inversion Hin.
  - apply elem_of_cons in Hin as [<- | Hin]; cbn [fold_left].
    + rewrite add_nan_r. apply fold_add_nan.
    + now apply IH.
Qed.

(** The average over a buffer that has just received NaN is NaN: the sum
    absorbs it, and at the wrap of the counter the empty sum gives 0/0. *)
Lemma buffer_average_nan (m : StateMachine) :
  well_formed m -> buffer_average (store_reading m nan) = nan.
Proof.
  intros Hwf. unfold buffer_average.
  destruct (Z.lt_ge_cases (buffer_index_ m + 1) SIZE_MODULUS) as [Hno | Hwrap].
  - unfold buffer_sum.
    rewrite (take_index_active_buffer _ (well_formed_store_reading m nan Hwf)).
    rewrite fold_add_elem_nan; [reflexivity |].
    eapply list_elem_of_lookup_2. exact (stored_reading_active m nan Hwf Hno).
  - destruct Hwf as [_ Hidx].
    assert (Hz : buffer_index_ (store_reading m nan) = 0).
    { cbn. unfold size_t_wrap.
      replace (buffer_index_ m + 1) with SIZE_MODULUS by lia. reflexivity. }
    unfold buffer_sum, active_count. rewrite Hz. reflexivity.
Qed.

(** C9. A NaN reading fires none of the threshold comparisons: [NaN > 20.0]
    and [NaN < 25.0] are false, and so is [average_value > 30.0], the
    recomputed average being NaN.  Idle stays Idle, Alert stays as it is and
    Monitoring stays Monitoring, with the NaN average and the incremented
    sample count. *)
Theorem nan_reading_no_threshold_transition (m : StateMachine) (rs : list float) :
  well_formed m ->
  let m' := process_sensors m (nan :: rs) in
  gtb nan f20 = false
  /\ ltb nan f25 = false
  /\ gtb (buffer_average (update_buffer m (nan :: rs))) f30 = false
  /\ match current_state_ m with
     | Idle => current_state_ m' = Idle
     | Monitoring state =>
         current_state_ m'
         = Monitoring {| average_value := nan;
                         sample_count := int_incr (sample_count state) |}
     | Alert state => current_state_ m' = Alert state
     | Calibrating _ => True
     end.
Proof.
  intros Hwf m'. cbn [update_buffer].
  rewrite (buffer_average_nan m Hwf).
  repeat split.
  destruct (current_state_ m) as [| st | st | st] eqn:Hs; [| | | exact I]; unfold m'.
  - now rewrite (state_after_Idle m nan rs Hs).
  - rewrite (state_after_Monitoring m st (nan :: rs) Hs). cbn [update_buffer].
    unfold monitoring_updated. now rewrite (buffer_average_nan m Hwf).
  - now rewrite (state_after_Alert m st nan rs Hs).
Qed.

Lemma nan_reading_no_threshold_transition_witness :
  current_state_ (process_reading StateMachine_new nan) = Idle.
Proof.
  pose proof (nan_reading_no_threshold_transition StateMachine_new []
                well_formed_new) as H.
  cbv zeta in H. destruct H as (_ & _ & _ & H). exact H.
Defined.

(** ** The cached discriminant *)

Lemma static_cast_index (v : StateVariant) :
  static_cast_StateId (index v) = StateId_of v.
Proof. destruct v; reflexivity. Qed.

Lemma id_consistent_transition_to (m : StateMachine) (v : StateVariant) :
  id_consistent (transition_to m v).
Proof. apply static_cast_index. Qed.

(** An in-place assignment that keeps the alternative keeps the invariant. *)
Lemma id_consistent_assign_in_place (m : StateMachine) (v : StateVariant) :
  id_consistent m -> index v = index (current_state_ m) ->
  id_consistent (assign_in_place m v).
Proof.
  unfold id_consistent, get_current_state_id. cbn. intros -> Hv.
  now rewrite <- !static_cast_index, Hv.
Qed.

Lemma id_consistent_process_sensors (m : StateMachine) (readings : list float) :
  id_consistent m -> id_consistent (process_sensors m readings).
Proof.
  intros Hm.
  assert (H1 : id_consistent (update_buffer m readings)).
  { unfold id_consistent, get_current_state_id.
    now rewrite current_id_update_buffer, current_state_update_buffer. }
  unfold process_sensors.
  destruct (current_state_ (update_buffer m readings)) as [| st | st | st] eqn:Hs.
  - unfold visit_Idle. destruct readings as [| r rs]; [exact H1 |].
    destruct (gtb r f20); [apply id_consistent_transition_to | exact H1].
  - unfold visit_Monitoring.
    destruct (gtb _ f30); [apply id_consistent_transition_to |].
    apply id_consistent_assign_in_place; [exact H1 | now rewrite Hs].
  - unfold visit_Alert. destruct readings as [| r rs]; [exact H1 |].
    destruct (ltb r f25); [apply id_consistent_transition_to | exact H1].
  - unfold visit_Calibrating.
    destruct (_ >? 5); [apply id_consistent_transition_to |].
    apply id_consistent_assign_in_place; [exact H1 | now rewrite Hs].
Qed.

(** C10. After any sequence of [transition_to] and [process_sensors] calls
    on a freshly constructed machine, [get_current_state_id] returns the
    enumerator of the live alternative: IDLE for Idle, MONITORING for
    Monitoring, ALERT for Alert, CALIBRATING for Calibrating. *)
Theorem state_id_matches_variant (ops : list operation) :
  let m := apply_operations StateMachine_new ops in
  get_current_state_id m
  = match current_state_ m with
    | Idle => IDLE
    | Monitoring _ => MONITORING
    | Alert _ => ALERT
    | Calibrating _ => CALIBRATING
    end.
Proof.
  cbv zeta. change (id_consistent (apply_operations StateMachine_new ops)).
  unfold apply_operations.
  assert (H0 : id_consistent StateMachine_new) by reflexivity.
  revert H0. generalize StateMachine_new.
  induction ops as [| op ops IH]; intros m Hm; [exact Hm |].
  cbn [fold_left]. apply IH. destruct op as [v | readings]; cbn [apply_operation].
  - apply id_consistent_transition_to.
  - now apply id_consistent_process_sensors.
Qed.

(** ** The ring of readings *)

Lemma process_all_snoc (m : StateMachine) (rs : list float) (r : float) :
  process_all m (rs ++ [r]) = process_reading (process_all m rs) r.
Proof. unfold process_all. now rewrite fold_left_app. Qed.

Lemma slot_of_nat (n : nat) :
  Z.to_nat (Z.of_nat n mod BUFFER_SIZE) = (n mod 10)%nat.
Proof.
  unfold BUFFER_SIZE. change 10 with (Z.of_nat 10).
  now rewrite <- Nat2Z.inj_mod, Nat2Z.id.
Qed.

Lemma slots_differ (i n : nat) :
  (i < n)%nat -> (n <= i + 9)%nat -> (i mod 10)%nat <> (n mod 10)%nat.
Proof.
  intros Hlt Hle Heq.
  pose proof (Nat.div_mod_eq i 10). pose proof (Nat.div_mod_eq n 10).
  pose proof (Nat.mod_upper_bound i 10). pose proof (Nat.mod_upper_bound n 10).
  lia.
Qed.

(** After [n] processed readings, below the wrap of the counter: the counter
    is [n], and slot [i mod 10] holds reading number [i] for each of the
    last ten readings. *)
Lemma ring_invariant (rs : list float) :
  Z.of_nat (length rs) < SIZE_MODULUS ->
  let m := process_all StateMachine_new rs in
  buffer_index_ m = Z.of_nat (length rs)
  /\ length (sensor_buffer_ m) = 10%nat
  /\ forall i : nat,
       (i < length rs)%nat -> (length rs <= i + 10)%nat ->
       sensor_buffer_ m !! (i mod 10)%nat = rs !! i.
Proof.
  induction rs as [| r rs IH] using rev_ind; intros Hlen m.
  - repeat split. intros i Hi. inversion Hi.
  - rewrite length_app in Hlen. cbn [length] in Hlen.
    destruct IH as (Hidx & Hbuf & Hslots); [lia |].
    subst m. rewrite process_all_snoc.
    set (m0 := process_all StateMachine_new rs) in *.
    unfold process_reading.
    rewrite buffer_index_process_sensors, sensor_buffer_process_sensors.
    cbn [update_buffer store_reading buffer_index_ sensor_buffer_].
    rewrite Hidx, slot_of_nat, length_app. cbn [length].
    split; [| split].
    + unfold size_t_wrap. rewrite Z.mod_small by lia. lia.
    + now rewrite length_insert.
    + intros i Hi Hlast.
      destruct (decide (i = length rs)) as [-> | Hne].
      * rewrite list_lookup_insert_eq
          by (rewrite Hbuf; apply Nat.mod_upper_bound; discriminate).
        now rewrite lookup_app_r, Nat.sub_diag by lia.
      * rewrite list_lookup_insert_ne by (apply not_eq_sym, slots_differ; lia).
        rewrite lookup_app_l by lia. apply Hslots; lia.
Qed.

(** C5 (as the code has it). For [n] processed readings, [n] below [2^32]:
    the active count is [min(n, 10)], and the active entries are the last
    [min(n, 10)] readings, slot [i mod 10] holding reading number [i].  Read
    cyclically from slot [n mod 10] once the buffer is full (from slot 0
    before), they are the most recent readings in arrival order. *)
Theorem ring_buffer_contents (rs : list float) :
  Z.of_nat (length rs) < SIZE_MODULUS ->
  let n := length rs in
  let m := process_all StateMachine_new rs in
  active_count m = Z.min (Z.of_nat n) BUFFER_SIZE
  /\ length (active_buffer m) = Nat.min n 10
  /\ (forall i : nat,
        (i < n)%nat -> (n <= i + 10)%nat ->
        active_buffer m !! (i mod 10)%nat = rs !! i)
  /\ rotate n (active_buffer m) = drop (n - 10) rs.
Proof.
  intros Hlen n m.
  destruct (ring_invariant rs Hlen) as (Hidx & Hbuf & Hslots).
  fold m in Hidx, Hbuf, Hslots. fold n in Hidx, Hslots.
  assert (Hcount : active_count m = Z.min (Z.of_nat n) BUFFER_SIZE).
  { unfold active_count. now rewrite Hidx. }
  assert (Hactive : active_buffer m = take (Nat.min n 10) (sensor_buffer_ m)).
  { unfold active_buffer. rewrite Hcount. f_equal. unfold BUFFER_SIZE. lia. }
  assert (Hactlen : length (active_buffer m) = Nat.min n 10).
  { rewrite Hactive, length_take. lia. }
  assert (Hlookup : forall i : nat,
             (i < n)%nat -> (n <= i + 10)%nat ->
             active_buffer m !! (i mod 10)%nat = rs !! i).
  { intros i Hi Hlast. rewrite Hactive, lookup_take_lt; [now apply Hslots |].
    pose proof (Nat.mod_upper_bound i 10). pose proof (Nat.div_mod_eq i 10). lia. }
  repeat split; try assumption.
  apply list_eq. intros i. rewrite lookup_drop.
  destruct (decide (i < Nat.min n 10)%nat) as [Hi | Hi].
  - rewrite lookup_rotate_r by lia. rewrite Hactlen.
    rewrite <- (Hlookup (n - 10 + i)%nat) by lia. f_equal.
    unfold rotate_nat_add.
    destruct (decide (n <= 10)%nat) as [Hsmall | Hfull].
    + rewrite Nat.min_l by lia. replace (n - 10 + i)%nat with i by lia.
      rewrite Nat.mod_small by lia.
      replace ((Z.of_nat n + Z.of_nat i) mod Z.of_nat n) with (Z.of_nat i).
      * apply Nat2Z.id.
      * symmetry. rewrite Z.add_comm, <- (Z.mul_1_l (Z.of_nat n)) at 1.
        rewrite Z.mod_add by lia. apply Z.mod_small. lia.
    + rewrite Nat.min_r by lia.
      rewrite <- Nat2Z.inj_add, <- Nat2Z.inj_mod, Nat2Z.id.
      replace (n + i)%nat with (n - 10 + i + 1 * 10)%nat by lia.
      now rewrite Nat.Div0.mod_add.
  - rewrite !lookup_ge_None_2; [reflexivity | lia |].
    rewrite length_rotate. lia.
Qed.

Lemma ring_buffer_contents_witness :
  Z.of_nat (length readings_1_to_12) < SIZE_MODULUS
  /\ rotate 12 (active_buffer (process_all StateMachine_new readings_1_to_12))
     = drop 2 readings_1_to_12.
Proof.
  assert (H : Z.of_nat (length readings_1_to_12) < SIZE_MODULUS) by reflexivity.
  split; [exact H |].
  exact (proj2 (proj2 (proj2 (ring_buffer_contents readings_1_to_12 H)))).
Defined.

(** C5 as stated fails: after eleven readings 1.0, ..., 11.0 the active
    entries are 11.0, 2.0, ..., 10.0, not 2.0, ..., 11.0. *)
Lemma ring_buffer_not_in_arrival_order :
  active_count (process_all StateMachine_new readings_1_to_11) = 10
  /\ active_buffer (process_all StateMachine_new readings_1_to_11)
     = map of_Z [11; 2; 3; 4; 5; 6; 7; 8; 9; 10]
  /\ active_buffer (process_all StateMachine_new readings_1_to_11)
     <> drop 1 readings_1_to_11.
Proof. vm_compute. repeat split. discriminate. Qed.

(** The counter is a [size_t]: [2^32] readings bring it back to 0, and the
    active count with it. *)
Lemma buffer_index_process_all (m : StateMachine) (rs : list float) :
  well_formed m ->
  buffer_index_ (process_all m rs)
  = (buffer_index_ m + Z.of_nat (length rs)) mod SIZE_MODULUS.
Proof.
  intros [_ Hidx]. induction rs as [| r rs IH] using rev_ind.
  - cbn [process_all fold_left length]. rewrite Z.add_0_r.
    symmetry. now apply Z.mod_small.
  - rewrite process_all_snoc. unfold process_reading.
    rewrite buffer_index_process_sensors. cbn [update_buffer store_reading buffer_index_].
    rewrite IH, length_app, Nat2Z.inj_add. cbn [length]. unfold size_t_wrap.
    rewrite Zplus_mod_idemp_l. f_equal. lia.
Qed.

Lemma active_count_wraps (rs : list float) :
  Z.of_nat (length rs) = SIZE_MODULUS ->
  active_count (process_all StateMachine_new rs) = 0.
Proof.
  intros Hlen. unfold active_count.
  rewrite (buffer_index_process_all _ _ well_formed_new), Hlen.
  change (buffer_index_ StateMachine_new) with 0.
  rewrite Z.add_0_l, Z_mod_same_full. reflexivity.
Qed.

(** ** Determinism *)

Lemma process_step_total (m : StateMachine) (readings : list float) :
  process_step m readings (process_sensors m readings).
Proof.
  unfold process_sensors. rewrite current_state_update_buffer.
  destruct (current_state_ m) as [| st | st | st] eqn:Hs.
  - unfold visit_Idle. destruct readings as [| r rs].
    + apply step_idle_stay; [exact Hs | discriminate].
    + destruct (gtb r f20) eqn:Hr.
      * now apply step_idle_fire.
      * apply step_idle_stay; [exact Hs |]. now intros ? [= <-].
  - unfold visit_Monitoring. cbn [monitoring_updated average_value].
    destruct (gtb _ f30) eqn:Ha.
    + now apply step_monitoring_fire.
    + now apply step_monitoring_stay.
  - unfold visit_Alert. destruct readings as [| r rs].
    + apply (step_alert_stay _ _ st); [exact Hs | discriminate].
    + destruct (ltb r f25) eqn:Hr.
      * now apply (step_alert_fire _ _ st r).
      * apply (step_alert_stay _ _ st); [exact Hs |]. now intros ? [= <-].
  - unfold visit_Calibrating. cbn [calibration_step].
    destruct (int_incr _ >? 5) eqn:Hc.
    + apply step_calibrating_fire; [exact Hs | lia].
    + apply step_calibrating_stay; [exact Hs | lia].
Qed.

Lemma process_step_deterministic (m : StateMachine) (readings : list float)
    (m1 m2 : StateMachine) :
  process_step m readings m1 -> process_step m readings m2 -> m1 = m2.
Proof.
  intros H1 H2.
  destruct H1; destruct H2;
    repeat match goal with
      | Ha : current_state_ m = _, Hb : current_state_ m = _ |- _ =>
          rewrite Ha in Hb; inversion Hb; subst; clear Hb
      | Ha : head readings = Some _, Hb : head readings = Some _ |- _ =>
          rewrite Ha in Hb; inversion Hb; subst; clear Hb
      | Ha : head readings = Some ?r, Hb : forall r, head readings = Some r -> _ |- _ =>
          specialize (Hb _ Ha)
      end;
    try reflexivity; try congruence; try lia.
Qed.

Lemma process_run_total (m : StateMachine) (rs : list float) :
  process_run m rs (process_all m rs).
Proof.
  revert m. induction rs as [| r rs IH]; intros m.
  - apply run_done.
  - apply (run_step m r rs (process_reading m r)); [apply process_step_total | apply IH].
Qed.

Lemma process_run_deterministic (m : StateMachine) (rs : list float)
    (m1 m2 : StateMachine) :
  process_run m rs m1 -> process_run m rs m2 -> m1 = m2.
Proof.
  intros H1. revert m2. induction H1 as [m | m r rs ma mb Hstep _ IH]; intros m2 H2.
  - now inversion H2.
  - inversion H2 as [| ? ? ? mc ? Hstep' Hrun']; subst.
    apply IH. now rewrite (process_step_deterministic _ _ _ _ Hstep Hstep').
Qed.

(** C7. For every sequence of readings, a run from a freshly constructed
    machine exists, and any two runs over the sequence end with the same
    state (alternative and members) and the same buffer contents. *)
Theorem processing_deterministic (rs : list float) :
  (exists m, process_run StateMachine_new rs m)
  /\ forall m1 m2 : StateMachine,
       process_run StateMachine_new rs m1 ->
       process_run StateMachine_new rs m2 ->
       current_state_ m1 = current_state_ m2
       /\ sensor_buffer_ m1 = sensor_buffer_ m2
       /\ buffer_index_ m1 = buffer_index_ m2
       /\ get_current_state_id m1 = get_current_state_id m2.
Proof.
  split.
  - exists (process_all StateMachine_new rs). apply process_run_total.
  - intros m1 m2 H1 H2.
    now rewrite (process_run_deterministic _ _ _ _ H1 H2).
Qed.

Lemma processing_deterministic_witness :
  current_state_ (process_sensors (process_sensors StateMachine_new [f21; f10]) [f100; f24])
  = current_state_ (process_all StateMachine_new [f21; f100])
  /\ sensor_buffer_ (process_sensors (process_sensors StateMachine_new [f21; f10]) [f100; f24])
     = sensor_buffer_ (process_all StateMachine_new [f21; f100]).
Proof.
  destruct (processing_deterministic [f21; f100]) as [_ Hdet].
  destruct (Hdet (process_sensors (process_sensors StateMachine_new [f21; f10]) [f100; f24])
              (process_all StateMachine_new [f21; f100])) as (Hs & Hb & _).
  - apply (run_step _ _ _ (process_sensors StateMachine_new [f21; f10]));
      [apply (process_step_total StateMachine_new [f21]) |].
    apply (run_step _ _ _ (process_sensors (process_sensors StateMachine_new [f21; f10])
                             [f100; f24]));
      [apply (process_step_total _ [f100]) | apply run_done].
  - apply process_run_total.
  - split; [exact Hs | exact Hb].
Defined.

(** ** The manager reads three sensors and uses the first *)

Lemma update_first_source (mgr : StateMachineManager) (s : SensorReadings) :
  state_machine_ (fst (update mgr s))
  = process_reading (state_machine_ mgr) (temp_reading s).
Proof. reflexivity. Qed.

Lemma update_all_first_source (ticks : list SensorReadings) (mgr : StateMachineManager) :
  state_machine_ (update_all mgr ticks)
  = process_all (state_machine_ mgr) (map temp_reading ticks).
Proof.
  revert mgr. induction ticks as [| s ticks IH]; intros mgr; [reflexivity |].
  cbn [update_all fold_left map]. fold (update_all (fst (update mgr s)) ticks).
  rewrite IH, update_first_source. reflexivity.
Qed.

(** What one [update] does to the state machine, written out from the
    three readings: the store into the ring and the rule of the live
    alternative, both on the first reading alone. *)
Lemma update_effect (mgr : StateMachineManager) (s : SensorReadings) :
  let sm := state_machine_ mgr in
  let r := temp_reading s in
  let sm' := state_machine_ (fst (update mgr s)) in
  let buffer' := <[Z.to_nat (buffer_index_ sm mod 10) := r]> (sensor_buffer_ sm) in
  let index' := (buffer_index_ sm + 1) mod 2 ^ 32 in
  let average' :=
    div (fold_left add (take (Z.to_nat index') buffer') zero) (of_Z (Z.min index' 10)) in
  sensor_buffer_ sm' = buffer'
  /\ buffer_index_ sm' = index'
  /\ current_state_ sm'
     = match current_state_ sm with
       | Idle =>
           if gtb r f20
           then Monitoring {| average_value := r; sample_count := 1 |}
           else Idle
       | Monitoring state =>
           if gtb average' f30
           then Alert {| message := "Temperature High"; threshold := f30 |}
           else Monitoring {| average_value := average';
                              sample_count := int_incr (sample_count state) |}
       | Alert state =>
           if ltb r f25
           then Calibrating {| reference_value := f22_5; calibration_step := 1 |}
           else Alert state
       | Calibrating state =>
           if int_incr (calibration_step state) >? 5
           then Idle
           else Calibrating {| reference_value := reference_value state;
                               calibration_step := int_incr (calibration_step state) |}
       end.
Proof.
  intros sm r sm' buffer' index' average'.
  unfold sm', update. cbn [fst state_machine_]. fold sm. fold r.
  split; [apply sensor_buffer_process_sensors |].
  split; [apply buffer_index_process_sensors |].
  destruct (current_state_ sm) as [| st | st | st] eqn:Hs.
  - exact (state_after_Idle sm r _ Hs).
  - exact (state_after_Monitoring sm st _ Hs).
  - exact (state_after_Alert sm st r _ Hs).
  - exact (state_after_Calibrating sm st _ Hs).
Qed.

(** C8. Each [update] feeds the first sensor's reading, and nothing of the
    second and third, to the buffer and the transitions: the reading is
    stored in slot [buffer_index_ % 10], the counter advances, and the rule
    of the live alternative is applied to that reading (or to the average
    over the buffer that now holds it).  A sequence of updates is the
    sequence of these steps over the first-sensor readings, so two
    sequences of ticks with the same first-sensor readings leave the state
    machine of a manager in the same state, with the same buffer. *)
Theorem first_source_noninterference (mgr : StateMachineManager)
    (ticks1 ticks2 : list SensorReadings) :
  map temp_reading ticks1 = map temp_reading ticks2 ->
  let sm1 := state_machine_ (update_all mgr ticks1) in
  let sm2 := state_machine_ (update_all mgr ticks2) in
  (forall (mgr0 : StateMachineManager) (s : SensorReadings),
     let sm := state_machine_ mgr0 in
     let r := temp_reading s in
     let sm' := state_machine_ (fst (update mgr0 s)) in
     let buffer' := <[Z.to_nat (buffer_index_ sm mod 10) := r]> (sensor_buffer_ sm) in
     let index' := (buffer_index_ sm + 1) mod 2 ^ 32 in
     let average' :=
       div (fold_left add (take (Z.to_nat index') buffer') zero)
         (of_Z (Z.min index' 10)) in
     sensor_buffer_ sm' = buffer'
     /\ buffer_index_ sm' = index'
     /\ current_state_ sm'
        = match current_state_ sm with
          | Idle =>
              if gtb r f20
              then Monitoring {| average_value := r; sample_count := 1 |}
              else Idle
          | Monitoring state =>
              if gtb average' f30
              then Alert {| message := "Temperature High"; threshold := f30 |}
              else Monitoring {| average_value := average';
                                 sample_count := int_incr (sample_count state) |}
          | Alert state =>
              if ltb r f25
              then Calibrating {| reference_value := f22_5; calibration_step := 1 |}
              else Alert state
          | Calibrating state =>
              if int_incr (calibration_step state) >? 5
              then Idle
              else Calibrating {| reference_value := reference_value state;
                                  calibration_step :=
                                    int_incr (calibration_step state) |}
          end)
  /\ sm1 = fold_left (fun sm r => state_machine_
                                   (fst (update {| state_machine_ := sm |}
                                           {| temp_reading := r;
                                              humidity_reading := zero;
                                              pressure_reading := zero |})))
            (map temp_reading ticks1) (state_machine_ mgr)
  /\ current_state_ sm1 = current_state_ sm2
  /\ sensor_buffer_ sm1 = sensor_buffer_ sm2
  /\ buffer_index_ sm1 = buffer_index_ sm2
  /\ sm1 = sm2.
Proof.
  intros Hfirst sm1 sm2.
  assert (H : sm1 = sm2).
  { unfold sm1, sm2. now rewrite !update_all_first_source, Hfirst. }
  split; [exact update_effect |].
  split; [| now rewrite H].
  unfold sm1. rewrite update_all_first_source. reflexivity.
Qed.

(** Two ticks with first readings 21.0 and 100.0: the buffer receives 21.0
    and 100.0 in slots 0 and 1 and the machine ends in Alert, whatever the
    humidity and pressure readings are. *)
Lemma first_source_noninterference_witness :
  map temp_reading ticks_a = map temp_reading ticks_b
  /\ sensor_buffer_ (state_machine_ (update_all StateMachineManager_new ticks_b))
     = [f21; f100; zero; zero; zero; zero; zero; zero; zero; zero]
  /\ buffer_index_ (state_machine_ (update_all StateMachineManager_new ticks_b)) = 2
  /\ current_state_ (state_machine_ (update_all StateMachineManager_new ticks_b))
     = Alert {| message := "Temperature High"; threshold := f30 |}.
Proof.
  assert (H : map temp_reading ticks_a = map temp_reading ticks_b) by reflexivity.
  split; [exact H |].
  destruct (first_source_noninterference StateMachineManager_new ticks_a ticks_b H)
    as (_ & _ & Hstate & Hbuffer & Hindex & _).
  rewrite <- Hstate, <- Hbuffer, <- Hindex.
  split; [vm_compute; reflexivity | split; vm_compute; reflexivity].
Defined.

(** * Further properties *)

(** ** The order on [float] *)

Lemma ltb_not_nan (a b : float) : ltb a b = true -> a <> nan /\ b <> nan.
Proof. destruct a, b; split; intros H'; try discriminate; cbn in *; discriminate. Qed.

Lemma ltb_irrefl (a : float) : ltb a a = false.
Proof. destruct a as [sa | sa | | sa ma ea]; float_order_cases. Qed.

Lemma ltb_asym (a b : float) : ltb a b = true -> ltb b a = false.
Proof.
  destruct a as [sa | sa | | sa ma ea], b as [sb | sb | | sb mb eb];
    float_order_cases.
Qed.

(** With [b] a number, [a < c] goes through [b] on one side or the other. *)
Lemma ltb_through (a b c : float) :
  b <> nan -> ltb a c = true -> ltb a b = true \/ ltb b c = true.
Proof.
  intros Hb Hac.
  destruct a as [sa | sa | | sa ma ea], b as [sb | sb | | sb mb eb],
           c as [sc | sc | | sc mc ec];
    try (exfalso; apply Hb; reflexivity); clear Hb;
    revert Hac; float_order_cases.
Qed.

Lemma ltb_false_leb (a b : float) :
  a <> nan -> b <> nan -> ltb a b = false -> SFleb b a = true.
Proof.
  intros Ha Hb.
  destruct a as [sa | sa | | sa ma ea], b as [sb | sb | | sb mb eb];
    try (exfalso; apply Ha; reflexivity); try (exfalso; apply Hb; reflexivity);
    clear Ha Hb; float_order_cases.
Qed.

(** ** A running extremum over a list *)

Section Extremum.

Variable beyond : float -> float -> bool.
Hypothesis beyond_not_nan :
  forall a b, beyond a b = true -> a <> nan /\ b <> nan.
Hypothesis beyond_irrefl : forall a, beyond a a = false.
Hypothesis beyond_asym : forall a b, beyond a b = true -> beyond b a = false.
Hypothesis beyond_through :
  forall a b c, b <> nan -> beyond a c = true -> beyond a b = true \/ beyond b c = true.

Lemma pick_not_nan (acc x : float) : acc <> nan -> pick beyond acc x <> nan.
Proof using beyond_not_nan.
  intros Hacc. unfold pick. destruct (beyond x acc) eqn:Hx; [| exact Hacc].
  exact (proj1 (beyond_not_nan _ _ Hx)).
Qed.

Lemma pick_nan (acc : float) : pick beyond acc nan = acc.
Proof using beyond_not_nan.
  unfold pick. destruct (beyond nan acc) eqn:Hx; [| reflexivity].
  now destruct (proj1 (beyond_not_nan _ _ Hx)).
Qed.

Lemma fold_pick (l : list float) (acc : float) :
  acc <> nan ->
  let res := fold_left (pick beyond) l acc in
  res <> nan
  /\ beyond acc res = false
  /\ (forall v, v ∈ l -> beyond v res = false)
  /\ (res = acc \/ res ∈ l).
Proof using beyond_not_nan beyond_irrefl beyond_asym beyond_through.
  revert acc. induction l as [| x l IH]; intros acc Hacc res.
  - repeat split; [exact Hacc | apply beyond_irrefl | | now left].
    intros v Hv. inversion Hv.
  - subst res. cbn [fold_left].
    pose proof (pick_not_nan acc x Hacc) as Hacc'.
    destruct (IH _ Hacc') as (Hnan & Hle & Hall & Hmem).
    set (res := fold_left (pick beyond) l (pick beyond acc x)) in *.
    assert (Hx : beyond x res = false).
    { destruct (beyond x res) eqn:Hxr; [| reflexivity].
      destruct (beyond_through _ _ _ Hacc' Hxr) as [H | H]; [| congruence].
      unfold pick in H. destruct (beyond x acc) eqn:Hxa; [| congruence].
      now rewrite beyond_irrefl in H. }
    assert (Ha : beyond acc res = false).
    { destruct (beyond acc res) eqn:Har; [| reflexivity].
      destruct (beyond_through _ _ _ Hacc' Har) as [H | H]; [| congruence].
      unfold pick in H. destruct (beyond x acc) eqn:Hxa.
      - now rewrite (beyond_asym _ _ Hxa) in H.
      - now rewrite beyond_irrefl in H. }
    repeat split; [exact Hnan | exact Ha | |].
    + intros v Hv. apply elem_of_cons in Hv as [-> | Hv]; [exact Hx | now apply Hall].
    + destruct Hmem as [Hmem | Hmem].
      * rewrite Hmem. unfold pick. destruct (beyond x acc); [right; left | now left].
      * right. now right.
Qed.

Lemma fold_pick_not_nan_entries (l : list float) (acc : float) :
  fold_left (pick beyond) (not_nan_entries l) acc = fold_left (pick beyond) l acc.
Proof using beyond_not_nan.
  revert acc. induction l as [| x l IH]; intros acc; [reflexivity |].
  unfold not_nan_entries in *. cbn [List.filter fold_left].
  destruct x as [s | s | | s mx ex]; cbn [is_nan negb fold_left]; try apply IH.
  rewrite pick_nan. apply IH.
Qed.

End Extremum.

Lemma gtb_not_nan (a b : float) : gtb a b = true -> a <> nan /\ b <> nan.
Proof. intros H. destruct (ltb_not_nan b a H). now split. Qed.

Lemma gtb_through (a b c : float) :
  b <> nan -> gtb a c = true -> gtb a b = true \/ gtb b c = true.
Proof.
  unfold gtb. intros Hb H. destruct (ltb_through c b a Hb H); [now right | now left].
Qed.

Lemma stats_fold_split (l : list float) (acc : float * float) :
  fold_left stats_step l acc
  = (fold_left (pick ltb) l (fst acc), fold_left (pick gtb) l (snd acc)).
Proof.
  revert acc. induction l as [| x l IH]; intros [mn mx]; [reflexivity |].
  cbn [fold_left]. rewrite IH. reflexivity.
Qed.

Lemma get_buffer_stats_fold (m : StateMachine) :
  buffer_index_ m <> 0 ->
  get_buffer_stats m
  = (fold_left (pick ltb) (active_buffer m) FLT_MAX,
     fold_left (pick gtb) (active_buffer m) FLT_LOWEST).
Proof.
  intros Hidx. unfold get_buffer_stats.
  destruct (Z.eqb_spec (buffer_index_ m) 0) as [H0 | _]; [contradiction |].
  exact (stats_fold_split (active_buffer m) (FLT_MAX, FLT_LOWEST)).
Qed.

Lemma FLT_MAX_not_nan : FLT_MAX <> nan.
Proof. discriminate. Qed.

Lemma FLT_LOWEST_not_nan : FLT_LOWEST <> nan.
Proof. discriminate. Qed.

(** ** Statistics of a non-empty buffer *)

(** X1. With at least one reading counted ([buffer_index_ != 0]), no active
    entry is below the returned minimum or above the returned maximum; for
    an entry that is a number, [min <= entry <= max]. *)
Theorem get_buffer_stats_bounds (m : StateMachine) (v : float) :
  buffer_index_ m <> 0 ->
  v ∈ active_buffer m ->
  ltb v (fst (get_buffer_stats m)) = false
  /\ ltb (snd (get_buffer_stats m)) v = false
  /\ (v <> nan ->
      SFleb (fst (get_buffer_stats m)) v = true
      /\ SFleb v (snd (get_buffer_stats m)) = true).
Proof.
  intros Hidx Hv. rewrite (get_buffer_stats_fold m Hidx). cbn [fst snd].
  destruct (fold_pick ltb ltb_not_nan ltb_irrefl ltb_asym ltb_through
              (active_buffer m) FLT_MAX FLT_MAX_not_nan) as (Hn1 & _ & Hmin & _).
  destruct (fold_pick gtb gtb_not_nan (fun a => ltb_irrefl a)
              (fun a b H => ltb_asym b a H) gtb_through
              (active_buffer m) FLT_LOWEST FLT_LOWEST_not_nan) as (Hn2 & _ & Hmax & _).
  specialize (Hmin v Hv). specialize (Hmax v Hv). unfold gtb in Hmax.
  repeat split; try assumption.
  - now apply ltb_false_leb.
  - now apply ltb_false_leb.
Qed.

Lemma get_buffer_stats_bounds_witness :
  SFleb (fst (get_buffer_stats (process_all StateMachine_new [f22; f10; f24]))) f10 = true
  /\ SFleb f10 (snd (get_buffer_stats (process_all StateMachine_new [f22; f10; f24]))) = true.
Proof.
  refine (proj2 (proj2 (get_buffer_stats_bounds
                          (process_all StateMachine_new [f22; f10; f24]) f10 _ _)) _).
  - discriminate.
  - vm_compute. right. left.
  - discriminate.
Defined.

(** X2. [get_buffer_stats] never returns NaN, whatever the buffer holds; on
    a counted buffer the minimum is an active entry or the initial
    [FLT_MAX], the maximum an active entry or the initial [lowest()]. *)
Theorem get_buffer_stats_not_nan (m : StateMachine) :
  fst (get_buffer_stats m) <> nan
  /\ snd (get_buffer_stats m) <> nan
  /\ (buffer_index_ m <> 0 ->
      (fst (get_buffer_stats m) = FLT_MAX \/ fst (get_buffer_stats m) ∈ active_buffer m)
      /\ (snd (get_buffer_stats m) = FLT_LOWEST
          \/ snd (get_buffer_stats m) ∈ active_buffer m)).
Proof.
  destruct (fold_pick ltb ltb_not_nan ltb_irrefl ltb_asym ltb_through
              (active_buffer m) FLT_MAX FLT_MAX_not_nan) as (Hn1 & _ & _ & Hm1).
  destruct (fold_pick gtb gtb_not_nan (fun a => ltb_irrefl a)
              (fun a b H => ltb_asym b a H) gtb_through
              (active_buffer m) FLT_LOWEST FLT_LOWEST_not_nan) as (Hn2 & _ & _ & Hm2).
  destruct (Z.eq_dec (buffer_index_ m) 0) as [H0 | Hidx].
  - unfold get_buffer_stats. rewrite H0. cbn.
    split; [discriminate | split; [discriminate | intros Hne; now contradiction Hne]].
  - rewrite (get_buffer_stats_fold m Hidx). cbn [fst snd].
    repeat split; assumption.
Qed.

Lemma get_buffer_stats_not_nan_witness :
  (fst (get_buffer_stats (process_all StateMachine_new [nan; f22; nan])) = FLT_MAX
   \/ fst (get_buffer_stats (process_all StateMachine_new [nan; f22; nan]))
      ∈ active_buffer (process_all StateMachine_new [nan; f22; nan]))
  /\ (snd (get_buffer_stats (process_all StateMachine_new [nan; f22; nan])) = FLT_LOWEST
      \/ snd (get_buffer_stats (process_all StateMachine_new [nan; f22; nan]))
         ∈ active_buffer (process_all StateMachine_new [nan; f22; nan])).
Proof.
  refine (proj2 (proj2 (get_buffer_stats_not_nan
                          (process_all StateMachine_new [nan; f22; nan]))) _).
  discriminate.
Defined.

(** X3. NaN entries are skipped by [get_buffer_stats]: the result is the
    one computed over the active entries that are numbers.  With readings
    counted and only NaN among the active entries, the result is the
    untouched initial pair, whose minimum [FLT_MAX] is above its maximum
    [lowest()]. *)
Theorem get_buffer_stats_skips_nan (m : StateMachine) :
  buffer_index_ m <> 0 ->
  get_buffer_stats m
  = fold_left stats_step (not_nan_entries (active_buffer m)) (FLT_MAX, FLT_LOWEST)
  /\ (not_nan_entries (active_buffer m) = [] ->
      get_buffer_stats m = (FLT_MAX, FLT_LOWEST)
      /\ ltb (snd (get_buffer_stats m)) (fst (get_buffer_stats m)) = true).
Proof.
  intros Hidx.
  assert (H : get_buffer_stats m
              = fold_left stats_step (not_nan_entries (active_buffer m))
                  (FLT_MAX, FLT_LOWEST)).
  { rewrite (get_buffer_stats_fold m Hidx), stats_fold_split. cbn [fst snd].
    now rewrite (fold_pick_not_nan_entries ltb ltb_not_nan),
                (fold_pick_not_nan_entries gtb gtb_not_nan). }
  split; [exact H |].
  intros Hall. rewrite H, Hall. split; reflexivity.
Qed.

Lemma get_buffer_stats_skips_nan_witness :
  get_buffer_stats (process_all StateMachine_new [nan; nan]) = (FLT_MAX, FLT_LOWEST).
Proof.
  refine (proj1 (proj2 (get_buffer_stats_skips_nan
                          (process_all StateMachine_new [nan; nan]) _) _)).
  - discriminate.
  - reflexivity.
Defined.

(** ** The order of the states *)

(** X4. A call of [process_sensors] keeps the live alternative or moves to
    the next one in the cycle Idle, Monitoring, Alert, Calibrating, Idle: it
    never skips an alternative and never goes back. *)
Theorem process_sensors_cycle_order (m : StateMachine) (readings : list float) :
  index (current_state_ (process_sensors m readings)) = index (current_state_ m)
  \/ index (current_state_ (process_sensors m readings))
     = (index (current_state_ m) + 1) mod 4.
Proof.
  destruct (current_state_ m) as [| st | st | st] eqn:Hs.
  - destruct readings as [| r rs].
    + left. unfold process_sensors. cbn [update_buffer]. rewrite Hs. cbn. now rewrite Hs.
    + rewrite (state_after_Idle m r rs Hs). destruct (gtb r f20); [now right | now left].
  - rewrite (state_after_Monitoring m st readings Hs).
    destruct (gtb _ f30); [now right | now left].
  - destruct readings as [| r rs].
    + left. unfold process_sensors. cbn [update_buffer]. rewrite Hs. cbn. now rewrite Hs.
    + rewrite (state_after_Alert m st r rs Hs). destruct (ltb r f25); [now right | now left].
  - rewrite (state_after_Calibrating m st readings Hs).
    destruct (int_incr _ >? 5); [now right | now left].
Qed.

(** ** Calls without a sensor *)

Lemma process_sensors_empty_Idle (m : StateMachine) :
  current_state_ m = Idle -> process_sensors m [] = m.
Proof. intros Hs. unfold process_sensors. cbn [update_buffer]. now rewrite Hs. Qed.

Lemma process_sensors_empty_Alert (m : StateMachine) (state : AlertState) :
  current_state_ m = Alert state -> process_sensors m [] = m.
Proof. intros Hs. unfold process_sensors. cbn [update_buffer]. now rewrite Hs. Qed.

(** X5. A call with an empty pack of sensors stores nothing.  In Idle and
    in Alert it changes nothing at all, so neither state can be left without
    a reading; in Monitoring the average is still recomputed over the buffer
    as it stands and the sample count incremented, and in Calibrating the
    step still advances. *)
Theorem process_sensors_no_sensor (m : StateMachine) :
  sensor_buffer_ (process_sensors m []) = sensor_buffer_ m
  /\ buffer_index_ (process_sensors m []) = buffer_index_ m
  /\ match current_state_ m with
     | Idle | Alert _ => process_sensors m [] = m
     | Monitoring state =>
         current_state_ (process_sensors m [])
         = if gtb (buffer_average m) f30
           then Alert {| message := ALERT_MESSAGE; threshold := f30 |}
           else Monitoring {| average_value := buffer_average m;
                              sample_count := int_incr (sample_count state) |}
     | Calibrating state =>
         current_state_ (process_sensors m [])
         = if int_incr (calibration_step state) >? 5
           then Idle
           else Calibrating {| reference_value := reference_value state;
                               calibration_step := int_incr (calibration_step state) |}
     end.
Proof.
  split; [apply (sensor_buffer_process_sensors m []) |].
  split; [apply (buffer_index_process_sensors m []) |].
  destruct (current_state_ m) as [| st | st | st] eqn:Hs.
  - now apply process_sensors_empty_Idle.
  - exact (state_after_Monitoring m st [] Hs).
  - now apply (process_sensors_empty_Alert m st).
  - exact (state_after_Calibrating m st [] Hs).
Qed.

(** ** The store of a reading *)

(** X6. In every state, a call with a first reading [r] on a well-formed
    machine overwrites slot [buffer_index_ % 10] with [r], leaves the nine
    other slots as they were, keeps the ten slots and advances the counter
    by one modulo [2^32]; transitions never touch the buffer. *)
Theorem process_sensors_stores_reading (m : StateMachine) (r : float) (rs : list float) :
  well_formed m ->
  let slot := Z.to_nat (buffer_index_ m mod BUFFER_SIZE) in
  let m' := process_sensors m (r :: rs) in
  sensor_buffer_ m' !! slot = Some r
  /\ (forall j : nat, j <> slot -> sensor_buffer_ m' !! j = sensor_buffer_ m !! j)
  /\ length (sensor_buffer_ m') = 10%nat
  /\ buffer_index_ m' = (buffer_index_ m + 1) mod 2 ^ 32.
Proof.
  intros [Hlen Hidx] slot m'. unfold m'.
  rewrite sensor_buffer_process_sensors, buffer_index_process_sensors.
  cbn [update_buffer store_reading sensor_buffer_ buffer_index_]. fold slot.
  assert (Hslot : (slot < 10)%nat).
  { unfold slot, BUFFER_SIZE.
    pose proof (Z.mod_pos_bound (buffer_index_ m) 10 eq_refl). lia. }
  unfold BUFFER_SIZE in Hlen.
  repeat split.
  - apply list_lookup_insert_eq. lia.
  - intros j Hj. apply list_lookup_insert_ne. congruence.
  - rewrite length_insert. exact Hlen.
Qed.

Lemma process_sensors_stores_reading_witness :
  sensor_buffer_ (process_sensors (process_all StateMachine_new readings_1_to_12) [f100; f10])
  !! 2%nat = Some f100.
Proof.
  refine (proj1 (process_sensors_stores_reading
                   (process_all StateMachine_new readings_1_to_12) f100 [f10] _)).
  split; [reflexivity | vm_compute; split; [discriminate | reflexivity]].
Defined.

(** ** States reached by processing *)

Lemma process_calls_snoc (m : StateMachine) (calls : list (list float))
    (readings : list float) :
  process_calls m (calls ++ [readings])
  = process_sensors (process_calls m calls) readings.
Proof. unfold process_calls. now rewrite fold_left_app. Qed.

Lemma entered_by_processing_step (m : StateMachine) (readings : list float) :
  entered_by_processing (current_state_ m) ->
  entered_by_processing (current_state_ (process_sensors m readings)).
Proof.
  intros Hinv. destruct (current_state_ m) as [| st | st | st] eqn:Hs.
  - destruct readings as [| r rs].
    + rewrite (process_sensors_empty_Idle m Hs), Hs. exact I.
    + rewrite (state_after_Idle m r rs Hs). destruct (gtb r f20); exact I.
  - rewrite (state_after_Monitoring m st readings Hs).
    destruct (gtb _ f30); [reflexivity | exact I].
  - destruct readings as [| r rs].
    + rewrite (process_sensors_empty_Alert m st Hs), Hs. exact Hinv.
    + rewrite (state_after_Alert m st r rs Hs).
      destruct (ltb r f25); [| exact Hinv]. cbn. split; [reflexivity | lia].
  - cbn in Hinv. destruct Hinv as [Href Hstep].
    rewrite (state_after_Calibrating m st readings Hs).
    rewrite int_incr_small by (unfold INT_MIN, INT_MAX; lia).
    destruct (Z.gtb_spec (calibration_step st + 1) 5); [exact I |].
    cbn. split; [exact Href | lia].
Qed.

(** X7. On a machine driven from construction by [process_sensors] alone,
    with any packs of readings: an Alert state always carries the message
    "Temperature High" and the threshold 30.0, and a Calibrating state
    always carries the reference 22.5 and a step between 1 and 5. *)
Theorem processing_reaches_fixed_shapes (calls : list (list float)) :
  match current_state_ (process_calls StateMachine_new calls) with
  | Idle | Monitoring _ => True
  | Alert state => message state = "Temperature High"%string /\ threshold state = f30
  | Calibrating state =>
      reference_value state = f22_5 /\ 1 <= calibration_step state <= 5
  end.
Proof.
  assert (H : entered_by_processing
                (current_state_ (process_calls StateMachine_new calls))).
  { induction calls as [| readings calls IH] using rev_ind; [exact I |].
    rewrite process_calls_snoc. now apply entered_by_processing_step. }
  destruct (current_state_ (process_calls StateMachine_new calls)) as [| st | st | st];
    cbn in H; [exact I | exact I | | exact H].
  rewrite H. split; reflexivity.
Qed.

(** X8. Calibration counts calls, not readings: from a Calibrating state
    with step [s] at most 5, the state stays Calibrating with step [s + k]
    after [k] calls while [s + k <= 5], and the call that brings the step to
    6 returns the machine to Idle, whatever the packs of readings hold. *)
Theorem calibrating_countdown (calls : list (list float)) (m : StateMachine)
    (state : CalibratingState) :
  current_state_ m = Calibrating state ->
  INT_MIN <= calibration_step state <= 5 ->
  let k := Z.of_nat (length calls) in
  (calibration_step state + k <= 5 ->
   current_state_ (process_calls m calls)
   = Calibrating {| reference_value := reference_value state;
                    calibration_step := calibration_step state + k |})
  /\ (calibration_step state + k = 6 ->
      current_state_ (process_calls m calls) = Idle).
Proof.
  intros Hs Hrange k.
  assert (Hstay : forall calls',
             calibration_step state + Z.of_nat (length calls') <= 5 ->
             current_state_ (process_calls m calls')
             = Calibrating {| reference_value := reference_value state;
                              calibration_step :=
                                calibration_step state + Z.of_nat (length calls') |}).
  { induction calls' as [| readings calls' IH] using rev_ind; intros Hk.
    - cbn. rewrite Z.add_0_r, Hs. now destruct state.
    - rewrite length_app, Nat2Z.inj_add in Hk |- *. cbn [length] in Hk |- *.
      rewrite process_calls_snoc.
      rewrite (state_after_Calibrating _ _ readings (IH ltac:(lia))).
      cbn [calibration_step reference_value].
      rewrite int_incr_small by (unfold INT_MIN, INT_MAX in *; lia).
      destruct (Z.gtb_spec (calibration_step state + Z.of_nat (length calls') + 1) 5);
        [lia |].
      do 2 f_equal. lia. }
  split; [apply Hstay |].
  intros Hk. subst k.
  destruct calls as [| readings calls _] using rev_ind; [cbn in Hk; lia |].
  rewrite length_app, Nat2Z.inj_add in Hk. cbn [length] in Hk.
  rewrite process_calls_snoc.
  rewrite (state_after_Calibrating _ _ readings (Hstay calls ltac:(lia))).
  cbn [calibration_step].
  rewrite int_incr_small by (unfold INT_MIN, INT_MAX in *; lia).
  destruct (Z.gtb_spec (calibration_step state + Z.of_nat (length calls) + 1) 5);
    [reflexivity | lia].
Qed.

Lemma calibrating_countdown_witness :
  current_state_
    (process_calls (transition_to StateMachine_new CALIBRATING_ENTRY)
       [[f100]; []; [nan; f10]; [f21]; []])
  = Idle.
Proof.
  refine (proj2 (calibrating_countdown [[f100]; []; [nan; f10]; [f21]; []]
                   (transition_to StateMachine_new CALIBRATING_ENTRY)
                   {| reference_value := f22_5; calibration_step := 1 |} _ _) _).
  - reflexivity.
  - unfold INT_MIN. cbn. lia.
  - reflexivity.
Defined.

(** ** The rendering of the state *)

(** X9. Whatever [std::format] makes of the numbers, the string of
    [get_state_info] tells the live alternative: two machines with the same
    rendering are in the same alternative. *)
Theorem get_state_info_tells_alternative
    (format_2f format_1f : float -> string) (format_int : Z -> string)
    (m1 m2 : StateMachine) :
  get_state_info format_2f format_1f format_int m1
  = get_state_info format_2f format_1f format_int m2 ->
  index (current_state_ m1) = index (current_state_ m2).
Proof.
  unfold get_state_info.
  destruct (current_state_ m1), (current_state_ m2); cbn;
    intros H; try reflexivity; discriminate H.
Qed.

Lemma get_state_info_tells_alternative_witness :
  index (current_state_ (process_reading StateMachine_new f21))
  = index (current_state_ (process_all StateMachine_new [f21; f22])).
Proof.
  apply (get_state_info_tells_alternative
           (fun _ => "21.00"%string) (fun _ => "30.0"%string) (fun _ => "1"%string)).
  reflexivity.
Defined.

(** ** The temperature sensor *)

Lemma temperature_in_range_all :
  forallb temperature_in_range (List.seq 0 100) = true.
Proof. vm_compute. reflexivity. Qed.

Lemma TemperatureSensor_read_checked (rand : Z) :
  0 <= rand ->
  temperature_in_range (Z.to_nat (Z.rem rand 100)) = true
  /\ TemperatureSensor_read rand
     = TemperatureSensor_read (Z.of_nat (Z.to_nat (Z.rem rand 100))).
Proof.
  intros Hrand.
  assert (Hk : 0 <= Z.rem rand 100 < 100).
  { rewrite Z.rem_mod_nonneg by lia. apply Z.mod_pos_bound. lia. }
  split.
  - pose proof temperature_in_range_all as Hall.
    rewrite forallb_forall in Hall. apply Hall.
    apply in_seq. lia.
  - unfold TemperatureSensor_read. rewrite Z2Nat.id by lia.
    rewrite (Z.rem_small (Z.rem rand 100) 100) by lia. reflexivity.
Qed.

(** X10. Whatever [rand()] returns, [TemperatureSensor::read] yields a
    number [r] with [23.5 <= r < 25.0]; it is above the Idle threshold 20.0
    and not above the Alert threshold 30.0. *)
Theorem TemperatureSensor_read_range (rand : Z) :
  0 <= rand ->
  SFleb f23_5 (TemperatureSensor_read rand) = true
  /\ ltb (TemperatureSensor_read rand) f25 = true
  /\ gtb (TemperatureSensor_read rand) f20 = true
  /\ gtb (TemperatureSensor_read rand) f30 = false.
Proof.
  intros Hrand.
  destruct (TemperatureSensor_read_checked rand Hrand) as [Hcheck ->].
  unfold temperature_in_range in Hcheck. cbv zeta in Hcheck.
  apply andb_prop in Hcheck as [Hcheck H30].
  apply andb_prop in Hcheck as [Hcheck H20].
  apply andb_prop in Hcheck as [Hlo Hhi].
  apply negb_true_iff in H30.
  repeat split; assumption.
Qed.

Lemma TemperatureSensor_read_range_witness :
  ltb (TemperatureSensor_read 1804289383) f25 = true.
Proof.
  refine (proj1 (proj2 (TemperatureSensor_read_range 1804289383 _))). lia.
Defined.



(** ** The status line *)

(** X12. The sample count logged by the [n]-th [update] of a new manager
    ([n] below [2^32]) is [min(n, 10)], and the logged state is the state
    the machine is left in. *)
Theorem update_status_samples (ticks : list SensorReadings) (s : SensorReadings) :
  Z.of_nat (length ticks) + 1 < SIZE_MODULUS ->
  let result := update (update_all StateMachineManager_new ticks) s in
  status_samples (snd result) = Z.min (Z.of_nat (length ticks) + 1) 10
  /\ status_state (snd result) = current_state_ (state_machine_ (fst result))
  /\ status_range (snd result) = get_buffer_stats (state_machine_ (fst result))
  /\ buffer_index_ (state_machine_ (fst result)) <> 0.
Proof.
  intros Hlen result.
  assert (Hidx : buffer_index_ (state_machine_ (fst result))
                 = Z.of_nat (length ticks) + 1).
  { unfold result, update. cbn [fst state_machine_].
    rewrite buffer_index_process_sensors. cbn [update_buffer store_reading buffer_index_].
    rewrite update_all_first_source. cbn [state_machine_ StateMachineManager_new].
    rewrite (buffer_index_process_all _ _ well_formed_new), length_map.
    change (buffer_index_ StateMachine_new) with 0. rewrite Z.add_0_l.
    unfold size_t_wrap. rewrite Zplus_mod_idemp_l. apply Z.mod_small. lia. }
  repeat split.
  - unfold result, update in *. cbn [snd fst status_samples state_machine_] in *.
    unfold get_buffer_index. now rewrite Hidx.
  - rewrite Hidx. lia.
Qed.

Lemma update_status_samples_witness :
  status_samples (snd (update (update_all StateMachineManager_new ticks_a)
                         {| temp_reading := f24; humidity_reading := f10;
                            pressure_reading := f100 |}))
  = 3.
Proof.
  refine (proj1 (update_status_samples ticks_a
                   {| temp_reading := f24; humidity_reading := f10;
                      pressure_reading := f100 |} _)).
  reflexivity.
Defined.

(** ** [clamp_value] *)

(** X13. For a signed type and [lo <= hi], [clamp_value] returns a value
    in [[lo, hi]], and [v] itself when [v] is already there.  For an
    unsigned type only the upper bound is enforced: the result is
    [min(v, hi)], so a value below [lo] comes back unchanged. *)
Theorem clamp_value_range (v lo hi : Z) :
  (lo <= hi ->
   lo <= Fsm.clamp_value true v lo hi <= hi
   /\ (lo <= v <= hi -> Fsm.clamp_value true v lo hi = v))
  /\ Fsm.clamp_value false v lo hi = Z.min v hi
  /\ (v < lo -> lo <= hi -> Fsm.clamp_value false v lo hi = v).
Proof.
  unfold Fsm.clamp_value.
  destruct (Z.ltb_spec v lo), (Z.gtb_spec v hi);
    (split; [intros Hle; split; [lia | intros Hin; lia] | split; [lia | intros; lia]]).
Qed.

Lemma clamp_value_range_witness :
  Fsm.clamp_value true 7 10 20 = 10 /\ Fsm.clamp_value false 7 10 20 = 7.
Proof.
  destruct (clamp_value_range 7 10 20) as (Hs & _ & Hu).
  split.
  - destruct (Hs ltac:(lia)) as [Hrange _]. cbn in *. lia.
  - apply Hu; lia.
Defined.

(** ** [minmax_samples] *)

Lemma minmax_fold_spec (rest : list Z) (mn mx : Z) :
  let res := fold_left Fsm.minmax_step rest (mn, mx) in
  fst res <= mn /\ mx <= snd res
  /\ (forall v, v ∈ rest -> fst res <= v <= snd res)
  /\ (fst res = mn \/ fst res ∈ rest)
  /\ (snd res = mx \/ snd res ∈ rest).
Proof.
  revert mn mx. induction rest as [| x rest IH]; intros mn mx res.
  - cbn. split; [lia |]. split; [lia |]. split; [| split; now left].
    intros v Hv. inversion Hv.
  - subst res. cbn [fold_left].
    change (Fsm.minmax_step (mn, mx) x)
      with ((if x <? mn then x else mn), (if mx <? x then x else mx)).
    specialize (IH (if x <? mn then x else mn) (if mx <? x then x else mx)).
    cbv zeta in IH. destruct IH as (Hlo & Hhi & Hall & Hmin & Hmax).
    set (res := fold_left Fsm.minmax_step rest _) in *.
    assert (Hx : fst res <= x <= snd res)
      by (destruct (Z.ltb_spec x mn), (Z.ltb_spec mx x); lia).
    split; [destruct (Z.ltb_spec x mn); lia |].
    split; [destruct (Z.ltb_spec mx x); lia |].
    split; [| split].
    + intros v Hv. apply elem_of_cons in Hv as [-> | Hv]; [exact Hx | apply Hall, Hv].
    + destruct Hmin as [Hmin | Hmin]; [| right; now right].
      rewrite Hmin. destruct (x <? mn); [right; left | now left].
    + destruct Hmax as [Hmax | Hmax]; [| right; now right].
      rewrite Hmax. destruct (mx <? x); [right; left | now left].
Qed.

(** X14. On a non-empty span [minmax_samples] returns a pair [(min, max)]
    of elements of the span with [min <= v <= max] for every element [v];
    on an empty span it has no value. *)
Theorem minmax_samples_spec (s : list Z) :
  Fsm.minmax_samples [] = None
  /\ (s <> [] ->
      exists min max,
        Fsm.minmax_samples s = Some (min, max)
        /\ min ∈ s /\ max ∈ s
        /\ forall v, v ∈ s -> min <= v <= max).
Proof.
  split; [reflexivity |].
  destruct s as [| front rest]; [congruence | intros _].
  destruct (minmax_fold_spec rest front front) as (Hlo & Hhi & Hall & Hmin & Hmax).
  cbv zeta in *.
  exists (fst (fold_left Fsm.minmax_step rest (front, front))),
         (snd (fold_left Fsm.minmax_step rest (front, front))).
  cbn [Fsm.minmax_samples]. rewrite <- surjective_pairing.
  split; [reflexivity |]. split; [| split].
  - destruct Hmin as [-> | Hmin]; [left | now right].
  - destruct Hmax as [-> | Hmax]; [left | now right].
  - intros v Hv. apply elem_of_cons in Hv as [-> | Hv]; [lia | apply Hall, Hv].
Qed.

Lemma minmax_samples_spec_witness :
  exists min max,
    Fsm.minmax_samples Fsm.sensor_samples = Some (min, max)
    /\ min ∈ Fsm.sensor_samples /\ max ∈ Fsm.sensor_samples
    /\ forall v, v ∈ Fsm.sensor_samples -> min <= v <= max.
Proof.
  refine (proj2 (minmax_samples_spec Fsm.sensor_samples) _). discriminate.
Defined.

(** ** The event-driven machine *)

Lemma dispatch_Error (sm : Fsm.StateMachine) (code : Z) (event : Fsm.Event) :
  Fsm.state_ sm = Fsm.Error code -> Fsm.dispatch sm event = Some sm.
Proof.
  intros Hs. unfold Fsm.dispatch, Fsm.handle. rewrite Hs. now destruct event.
Qed.

(** X15. Error is final: once the machine is in Error, every sequence of
    events, ticks and [EvInit] included, leaves it exactly as it is. *)
Theorem dispatch_Error_absorbing (sm : Fsm.StateMachine) (code : Z)
    (events : list Fsm.Event) :
  Fsm.state_ sm = Fsm.Error code ->
  Fsm.dispatch_all sm events = Some sm.
Proof.
  intros Hs. induction events as [| event events IH]; [reflexivity |].
  cbn [Fsm.dispatch_all]. now rewrite (dispatch_Error sm code event Hs).
Qed.

Lemma dispatch_Error_absorbing_witness :
  Fsm.dispatch_all (Fsm.set_state (Fsm.StateMachine_new Fsm.sensor_samples) (Fsm.Error 95))
    [Fsm.EvTick; Fsm.EvInit; Fsm.EvError 3; Fsm.EvTick]
  = Some (Fsm.set_state (Fsm.StateMachine_new Fsm.sensor_samples) (Fsm.Error 95)).
Proof.
  apply (dispatch_Error_absorbing _ 95). reflexivity.
Defined.

(** X16. No handler takes [EvError]: removing the [EvError] events from a
    sequence of events does not change what dispatching the sequence gives. *)
Theorem dispatch_all_without_EvError (sm : Fsm.StateMachine) (events : list Fsm.Event) :
  Fsm.dispatch_all sm events
  = Fsm.dispatch_all sm (List.filter (fun event => negb (is_EvError event)) events).
Proof.
  revert sm. induction events as [| event events IH]; intros sm; [reflexivity |].
  destruct event as [| | code]; cbn [List.filter is_EvError negb Fsm.dispatch_all].
  - destruct (Fsm.dispatch sm Fsm.EvInit); [apply IH | reflexivity].
  - destruct (Fsm.dispatch sm Fsm.EvTick); [apply IH | reflexivity].
  - assert (H : Fsm.dispatch sm (Fsm.EvError code) = Some sm).
    { unfold Fsm.dispatch, Fsm.handle. now destruct (Fsm.state_ sm). }
    rewrite H. apply IH.
Qed.

Lemma dispatched_shape_new (sensor_data : list Z) :
  dispatched_shape sensor_data (Fsm.StateMachine_new sensor_data).
Proof. split; [reflexivity | now left]. Qed.

Lemma dispatched_shape_step (sensor_data : list Z) (sm sm' : Fsm.StateMachine)
    (event : Fsm.Event) :
  dispatched_shape sensor_data sm ->
  Fsm.dispatch sm event = Some sm' ->
  dispatched_shape sensor_data sm'.
Proof.
  intros [Hdata Hshape] Hstep. unfold Fsm.dispatch, Fsm.handle in Hstep.
  destruct Hshape as [Hs | [Hs | (mn & mx & Hmm & Hgt & Hs)]]; rewrite Hs in Hstep.
  - destruct event; injection Hstep as <-.
    + split; [exact Hdata |]. right. left. cbn. now rewrite Hdata.
    + split; [exact Hdata | now left].
    + split; [exact Hdata | now left].
  - destruct event.
    + injection Hstep as <-. split; [exact Hdata | right; now left].
    + destruct (Fsm.minmax_samples sensor_data) as [[mn mx] |] eqn:Hmm; [| discriminate].
      destruct (Z.gtb_spec mx 90) as [Hgt | Hle]; injection Hstep as <-.
      * split; [exact Hdata |]. right. right. exists mn, mx.
        split; [exact Hmm | split; [lia | reflexivity]].
      * split; [exact Hdata | right; now left].
    + injection Hstep as <-. split; [exact Hdata | right; now left].
  - assert (sm' = sm) as -> by (destruct event; now injection Hstep).
    split; [exact Hdata |]. right. right. now exists mn, mx.
Qed.

Lemma dispatched_shape_defined (sensor_data : list Z) (sm : Fsm.StateMachine)
    (event : Fsm.Event) :
  sensor_data <> [] ->
  dispatched_shape sensor_data sm ->
  exists sm', Fsm.dispatch sm event = Some sm'.
Proof.
  intros Hne [Hdata Hshape]. unfold Fsm.dispatch, Fsm.handle.
  destruct Hshape as [Hs | [Hs | (mn & mx & Hmm & Hgt & Hs)]]; rewrite Hs.
  - destruct event; eauto.
  - destruct event; eauto.
    destruct sensor_data as [| front rest]; [congruence |].
    cbn [Fsm.minmax_samples].
    destruct (fold_left Fsm.minmax_step rest (front, front)) as [mn mx].
    destruct (mx >? 90); eauto.
  - destruct event; eauto.
Qed.

(** X17. Built over the samples [sensor_data], the machine only ever holds
    Idle with counter 0, Running over these samples, or Error with their
    maximum as code, a maximum above 90; the samples are never replaced.
    Over a non-empty span every sequence of events is dispatched to the
    end; over an empty one the first tick in Running has no defined
    outcome. *)
Theorem dispatch_all_shape (sensor_data : list Z) (events : list Fsm.Event) :
  (forall sm,
     Fsm.dispatch_all (Fsm.StateMachine_new sensor_data) events = Some sm ->
     Fsm.sensor_data_ sm = sensor_data
     /\ (Fsm.state_ sm = Fsm.Idle 0
         \/ Fsm.state_ sm = Fsm.Running sensor_data
         \/ exists min max,
              Fsm.minmax_samples sensor_data = Some (min, max)
              /\ max > 90 /\ Fsm.state_ sm = Fsm.Error max))
  /\ (sensor_data <> [] ->
      exists sm, Fsm.dispatch_all (Fsm.StateMachine_new sensor_data) events = Some sm)
  /\ Fsm.dispatch_all (Fsm.StateMachine_new []) [Fsm.EvInit; Fsm.EvTick] = None.
Proof.
  pose proof (dispatched_shape_new sensor_data) as H0.
  revert H0. generalize (Fsm.StateMachine_new sensor_data) as sm0.
  intros sm0 H0. split; [| split; [| reflexivity]].
  - revert sm0 H0. induction events as [| event events IH]; intros sm0 H0 sm Hrun.
    + injection Hrun as <-. exact H0.
    + cbn [Fsm.dispatch_all] in Hrun.
      destruct (Fsm.dispatch sm0 event) as [sm1 |] eqn:Hstep; [| discriminate].
      exact (IH sm1 (dispatched_shape_step _ _ _ _ H0 Hstep) sm Hrun).
  - intros Hne. revert sm0 H0.
    induction events as [| event events IH]; intros sm0 H0; [now exists sm0 |].
    destruct (dispatched_shape_defined _ _ event Hne H0) as [sm1 Hstep].
    cbn [Fsm.dispatch_all]. rewrite Hstep.
    exact (IH sm1 (dispatched_shape_step _ _ _ _ H0 Hstep)).
Qed.

Lemma dispatch_all_shape_witness :
  exists sm,
    Fsm.dispatch_all (Fsm.StateMachine_new Fsm.sensor_samples)
      [Fsm.EvTick; Fsm.EvInit; Fsm.EvTick; Fsm.EvTick]
    = Some sm.
Proof.
  refine (proj1 (proj2 (dispatch_all_shape Fsm.sensor_samples
                          [Fsm.EvTick; Fsm.EvInit; Fsm.EvTick; Fsm.EvTick])) _).
  discriminate.
Defined.

Lemma dispatch_all_new_shape (sensor_data : list Z) (events : list Fsm.Event)
    (sm : Fsm.StateMachine) :
  Fsm.dispatch_all (Fsm.StateMachine_new sensor_data) events = Some sm ->
  dispatched_shape sensor_data sm.
Proof.
  pose proof (dispatched_shape_new sensor_data) as H0.
  revert H0. generalize (Fsm.StateMachine_new sensor_data) as sm0.
  induction events as [| event events IH]; intros sm0 H0 Hrun.
  - injection Hrun as <-. exact H0.
  - cbn [Fsm.dispatch_all] in Hrun.
    destruct (Fsm.dispatch sm0 event) as [sm1 |] eqn:Hstep; [| discriminate].
    exact (IH sm1 (dispatched_shape_step _ _ _ _ H0 Hstep) Hrun).
Qed.

(** X18. The overload threshold: if no sample is above 90, no sequence of
    events brings the machine to Error; if some sample is above 90, the
    events [EvInit], [EvTick] bring it to Error with the largest sample as
    code. *)
Theorem dispatch_Error_iff_overload (sensor_data : list Z) :
  ((forall v, v ∈ sensor_data -> v <= 90) ->
   forall events sm code,
     Fsm.dispatch_all (Fsm.StateMachine_new sensor_data) events = Some sm ->
     Fsm.state_ sm <> Fsm.Error code)
  /\ ((exists v, v ∈ sensor_data /\ v > 90) ->
      exists max,
        Fsm.dispatch_all (Fsm.StateMachine_new sensor_data) [Fsm.EvInit; Fsm.EvTick]
        = Some (Fsm.set_state (Fsm.StateMachine_new sensor_data) (Fsm.Error max))
        /\ max ∈ sensor_data /\ max > 90
        /\ forall v, v ∈ sensor_data -> v <= max).
Proof.
  split.
  - intros Hlow events sm code Hrun Herr.
    destruct (dispatch_all_new_shape _ _ _ Hrun) as [_ Hshape].
    destruct Hshape as [Hs | [Hs | (mn & mx & Hmm & Hgt & Hs)]]; try congruence.
    destruct sensor_data as [| front rest]; [discriminate |].
    cbn [Fsm.minmax_samples] in Hmm. injection Hmm as Hmm.
    destruct (minmax_fold_spec rest front front) as (_ & _ & _ & _ & Hmax).
    cbv zeta in Hmax. rewrite Hmm in Hmax. cbn [snd] in Hmax.
    assert (Hin : mx ∈ front :: rest).
    { destruct Hmax as [-> | Hmax]; [left | now right]. }
    specialize (Hlow mx Hin). lia.
  - intros (v & Hv & Hgt).
    destruct sensor_data as [| front rest]; [inversion Hv |].
    destruct (minmax_fold_spec rest front front) as (_ & Hhi & Hall & _ & Hmax).
    cbv zeta in *.
    destruct (fold_left Fsm.minmax_step rest (front, front)) as [mn mx] eqn:Hfold.
    cbn [fst snd] in *.
    assert (Hbound : forall w, w ∈ front :: rest -> w <= mx).
    { intros w Hw. apply elem_of_cons in Hw as [-> | Hw]; [lia | apply Hall, Hw]. }
    exists mx. repeat split.
    + cbn. rewrite Hfold.
      destruct (Z.gtb_spec mx 90) as [_ | Hle]; [reflexivity |].
      specialize (Hbound v Hv). lia.
    + destruct Hmax as [-> | Hmax]; [left | now right].
    + specialize (Hbound v Hv). lia.
    + exact Hbound.
Qed.

Lemma dispatch_Error_iff_overload_witness :
  exists max,
    Fsm.dispatch_all (Fsm.StateMachine_new Fsm.sensor_samples) [Fsm.EvInit; Fsm.EvTick]
    = Some (Fsm.set_state (Fsm.StateMachine_new Fsm.sensor_samples) (Fsm.Error max))
    /\ max ∈ Fsm.sensor_samples /\ max > 90
    /\ forall v, v ∈ Fsm.sensor_samples -> v <= max.
Proof.
  refine (proj2 (dispatch_Error_iff_overload Fsm.sensor_samples) _).
  exists 95. split; [| lia]. unfold Fsm.sensor_samples. repeat (first [left | right]).
Defined.

(** ** The wrap of the counter *)

(** X19. The reading that takes [buffer_index_] from [2^32 - 1] to 0 leaves
    the machine with an empty active view although the ten slots are
    written: [get_buffer_stats] answers (0.0, 0.0) as for a buffer never
    written, and a machine in Monitoring stays there with the average 0/0,
    a NaN. *)
Theorem counter_wrap_empties_view (m : StateMachine) (r : float) (rs : list float) :
  well_formed m ->
  buffer_index_ m = SIZE_MODULUS - 1 ->
  let m' := process_sensors m (r :: rs) in
  buffer_index_ m' = 0
  /\ active_count m' = 0
  /\ active_buffer m' = []
  /\ get_buffer_stats m' = (zero, zero)
  /\ (forall state, current_state_ m = Monitoring state ->
      current_state_ m'
      = Monitoring {| average_value := nan;
                      sample_count := int_incr (sample_count state) |}).
Proof.
  intros Hwf Hidx m'.
  assert (H0 : buffer_index_ m' = 0).
  { unfold m'. rewrite buffer_index_process_sensors.
    cbn [update_buffer store_reading buffer_index_]. rewrite Hidx.
    unfold size_t_wrap. replace (SIZE_MODULUS - 1 + 1) with SIZE_MODULUS by lia.
    apply Z_mod_same_full. }
  split; [exact H0 |].
  split; [unfold active_count; now rewrite H0 |].
  split; [unfold active_buffer, active_count; now rewrite H0 |].
  split; [unfold get_buffer_stats; now rewrite H0 |].
  intros state Hs. unfold m'.
  rewrite (state_after_Monitoring m state (r :: rs) Hs). cbn [update_buffer].
  assert (Havg : buffer_average (store_reading m r) = nan).
  { assert (Hz : buffer_index_ (store_reading m r) = 0).
    { unfold m' in H0. now rewrite buffer_index_process_sensors in H0. }
    unfold buffer_average, buffer_sum, active_count. rewrite Hz. reflexivity. }
  unfold monitoring_updated. rewrite Havg. reflexivity.
Qed.

Lemma counter_wrap_empties_view_witness :
  get_buffer_stats (process_sensors machine_before_wrap [f100; f10; f22]) = (zero, zero).
Proof.
  refine (proj1 (proj2 (proj2 (proj2
            (counter_wrap_empties_view machine_before_wrap f100 [f10; f22] _ _))))).
  - split; [reflexivity | unfold machine_before_wrap, SIZE_MODULUS; cbn; lia].
  - reflexivity.
Defined.
